(** * SAVER_LOGGER: a shallow embedding of the logging core

    The Burp extension [SAVER_LOGGER.py] queues every observed HTTP message,
    turns the queued items into log rows on a worker thread, and writes the
    rows to CSV files on demand and from a timer.  This file embeds the
    methods of [BurpExtender] that touch [log_data], [request_counter],
    [request_tracking], [processing_queue] and [last_backup_time], and
    states the behaviour of the specification over them.

    Conventions of the embedding.
    - [self] is a record with the attributes of the Python object; a method
      takes [self] first, as in Python, and returns the updated record.
    - A Python [int] is a [Z]; a [str] is a [string]; the dict
      [request_tracking] is a [gmap Z _]; the list [log_data] is a [list].
    - Every reading of the wall clock is an argument of the method that
      reads it; [strftime] formats it.
    - The file system is a finite map from paths to contents, threaded
      through the methods that write.
    - A critical section (the code between [lock()] and [unlock()]) is one
      definition; a handler is the composition of its critical sections, so
      one work item is processed without another thread in between.
    - Swing status text ([_append_status]) and console prints are not
      modelled; message dialogs are, as the value a UI action returns. *)

From Stdlib Require Import ZArith String Ascii List Lia DecimalString.
From stdpp Require Import gmap strings list fin_maps.

Open Scope Z_scope.
Open Scope string_scope.
Open Scope list_scope.

(** ** Python strings *)

Module Py.

(** [str(n)] for an [int]. *)
Definition str_int (n : Z) : string := NilZero.string_of_int (Z.to_int n).

Fixpoint chars (s : string) : list ascii :=
  match s with
  | EmptyString => []
  | String c s' => c :: chars s'
  end.

(** [s.replace(old, new)] where [old] and [new] are one character long, the
    only form the exporter uses. *)
Fixpoint replace (old new : ascii) (s : string) : string :=
  match s with
  | EmptyString => EmptyString
  | String c s' =>
      String (if Ascii.eqb c old then new else c) (replace old new s')
  end.

(** [sep.join(l)]. *)
Fixpoint join (sep : string) (l : list string) : string :=
  match l with
  | [] => ""
  | [x] => x
  | x :: rest => x +:+ sep +:+ join sep rest
  end.

(** [s.split(sep)] for a one-character separator: the pieces between the
    occurrences of [sep], always at least one piece.  [split_acc] carries
    the current piece reversed. *)
Fixpoint split_acc (sep : ascii) (acc : list ascii) (s : string) : list string :=
  match s with
  | EmptyString => [string_of_list_ascii (rev acc)]
  | String c s' =>
      if Ascii.eqb c sep
      then string_of_list_ascii (rev acc) :: split_acc sep [] s'
      else split_acc sep (c :: acc) s'
  end.

Definition split (sep : ascii) (s : string) : list string := split_acc sep [] s.

(** [s.startswith(c)] and [s.endswith(c)] for one character. *)
Definition startswith (c : ascii) (s : string) : bool :=
  match s with
  | String c' _ => Ascii.eqb c' c
  | EmptyString => false
  end.

Fixpoint endswith (c : ascii) (s : string) : bool :=
  match s with
  | EmptyString => false
  | String c' EmptyString => Ascii.eqb c' c
  | String _ s' => endswith c s'
  end.

(** [s.endswith(suffix)] for a string suffix. *)
Definition endswith_str (suffix s : string) : bool :=
  (String.length suffix <=? String.length s)%nat
  && String.eqb
       (String.substring (String.length s - String.length suffix)
          (String.length suffix) s)
       suffix.

(** [os.path.join(a, b)] with the POSIX separator. *)
Definition path_join (a b : string) : string :=
  if startswith "/" b then b
  else if String.eqb a "" || endswith "/" a then a +:+ b
  else a +:+ "/" +:+ b.

(** [datetime.datetime]: the six fields [strftime] reads. *)
Record datetime := {
  year : nat; month : nat; day : nat;
  hour : nat; minute : nat; second : nat
}.

Definition digit (n : nat) : ascii :=
  match (n mod 10)%nat with
  | 0%nat => "0" | 1%nat => "1" | 2%nat => "2" | 3%nat => "3" | 4%nat => "4"
  | 5%nat => "5" | 6%nat => "6" | 7%nat => "7" | 8%nat => "8" | _ => "9"
  end%char.

(** Zero-padded decimal of fixed width, as [%Y] (width 4) and [%m], [%d],
    [%H], [%M], [%S] (width 2) print the fields of a valid [datetime]. *)
Definition pad2 (n : nat) : string :=
  String (digit (n / 10)) (String (digit n) "").

Definition pad4 (n : nat) : string :=
  String (digit (n / 1000)) (String (digit (n / 100)) (pad2 n)).

Definition directive (c : ascii) (d : datetime) : string :=
  if Ascii.eqb c "Y" then pad4 (year d)
  else if Ascii.eqb c "m" then pad2 (month d)
  else if Ascii.eqb c "d" then pad2 (day d)
  else if Ascii.eqb c "H" then pad2 (hour d)
  else if Ascii.eqb c "M" then pad2 (minute d)
  else if Ascii.eqb c "S" then pad2 (second d)
  else String c "".

(** [d.strftime(fmt)] for the directives the extension uses; any other
    character of the format is copied. *)
Fixpoint strftime (fmt : string) (d : datetime) : string :=
  match fmt with
  | EmptyString => ""
  | String a rest =>
      if Ascii.eqb a "%"
      then match rest with
           | String c rest' => directive c d +:+ strftime rest' d
           | EmptyString => String a ""
           end
      else String a (strftime rest d)
  end.

(** [c in s] for one character. *)
Fixpoint contains (c : ascii) (s : string) : bool :=
  match s with
  | EmptyString => false
  | String c' s' => Ascii.eqb c' c || contains c s'
  end.

End Py.

(** ** The Burp interfaces the core reads *)

(** What [messageInfo.getResponse()] and [analyzeResponse] give: no bytes
    ([None] or empty), bytes on which [analyzeResponse] raises, or bytes
    with a status code. *)
Inductive response_bytes :=
  | NoResponse
  | Unparseable
  | Analyzed (status_code : Z).

(** [IHttpRequestResponse] together with [analyzeRequest] on it.
    [getParameters] is [None] when the call raises. *)
Record IHttpRequestResponse := {
  getUrl : string;
  getMethod : string;
  getParameters : option (list string);
  getHost : string;
  getResponse : response_bytes
}.

(** [IBurpExtenderCallbacks]: the two calls the core makes.  Burp returns
    product name, major and minor version from [getBurpVersion]. *)
Record IBurpExtenderCallbacks := {
  getToolName : Z -> string;
  getBurpVersion : string * string * string
}.

(** ** Data model *)

(** A value of [request_tracking]:
    [{'start_time', 'end_time', 'insertion_points', 'url'}]. *)
Record Tracking := {
  t_start_time : string;
  t_end_time : option string;
  t_insertion_points : Z;
  t_url : string
}.

(** A row of [log_data], columns 0 to 9 in this order. *)
Record LogRow := {
  serial_no : Z;
  host : string;
  request_method : string;
  url : string;
  status_code : string;
  tool_name : string;
  request_count : Z;
  insertion_point_count : Z;
  start_time : string;
  end_time : string
}.

(** [[str(col) for col in row]]. *)
Definition columns (row : LogRow) : list string :=
  [ Py.str_int (serial_no row); host row; request_method row; url row;
    status_code row; tool_name row; Py.str_int (request_count row);
    Py.str_int (insertion_point_count row); start_time row; end_time row ].

(** A queued [work_item]. *)
Record WorkItem := {
  tool_flag : Z;
  message_info : IHttpRequestResponse;
  is_request : bool
}.

(** The attributes of [BurpExtender] set in [registerExtenderCallbacks]. *)
Record BurpExtender := {
  callbacks : IBurpExtenderCallbacks;
  log_data : list LogRow;
  request_counter : Z;
  runtime_id : string;
  request_tracking : gmap Z Tracking;
  auto_backup_enabled : bool;
  backup_folder : string;
  backup_interval_seconds : Z;
  last_backup_time : Z;
  processing_queue : list WorkItem;
  shutdown_flag : bool
}.

Definition set_log_data (v : list LogRow) (self : BurpExtender) : BurpExtender :=
  {| callbacks := callbacks self; log_data := v;
     request_counter := request_counter self; runtime_id := runtime_id self;
     request_tracking := request_tracking self;
     auto_backup_enabled := auto_backup_enabled self;
     backup_folder := backup_folder self;
     backup_interval_seconds := backup_interval_seconds self;
     last_backup_time := last_backup_time self;
     processing_queue := processing_queue self;
     shutdown_flag := shutdown_flag self |}.

Definition set_request_counter (v : Z) (self : BurpExtender) : BurpExtender :=
  {| callbacks := callbacks self; log_data := log_data self;
     request_counter := v; runtime_id := runtime_id self;
     request_tracking := request_tracking self;
     auto_backup_enabled := auto_backup_enabled self;
     backup_folder := backup_folder self;
     backup_interval_seconds := backup_interval_seconds self;
     last_backup_time := last_backup_time self;
     processing_queue := processing_queue self;
     shutdown_flag := shutdown_flag self |}.

Definition set_request_tracking (v : gmap Z Tracking) (self : BurpExtender)
  : BurpExtender :=
  {| callbacks := callbacks self; log_data := log_data self;
     request_counter := request_counter self; runtime_id := runtime_id self;
     request_tracking := v;
     auto_backup_enabled := auto_backup_enabled self;
     backup_folder := backup_folder self;
     backup_interval_seconds := backup_interval_seconds self;
     last_backup_time := last_backup_time self;
     processing_queue := processing_queue self;
     shutdown_flag := shutdown_flag self |}.

Definition set_last_backup_time (v : Z) (self : BurpExtender) : BurpExtender :=
  {| callbacks := callbacks self; log_data := log_data self;
     request_counter := request_counter self; runtime_id := runtime_id self;
     request_tracking := request_tracking self;
     auto_backup_enabled := auto_backup_enabled self;
     backup_folder := backup_folder self;
     backup_interval_seconds := backup_interval_seconds self;
     last_backup_time := v;
     processing_queue := processing_queue self;
     shutdown_flag := shutdown_flag self |}.

Definition set_processing_queue (v : list WorkItem) (self : BurpExtender)
  : BurpExtender :=
  {| callbacks := callbacks self; log_data := log_data self;
     request_counter := request_counter self; runtime_id := runtime_id self;
     request_tracking := request_tracking self;
     auto_backup_enabled := auto_backup_enabled self;
     backup_folder := backup_folder self;
     backup_interval_seconds := backup_interval_seconds self;
     last_backup_time := last_backup_time self;
     processing_queue := v;
     shutdown_flag := shutdown_flag self |}.

Definition set_shutdown_flag (v : bool) (self : BurpExtender) : BurpExtender :=
  {| callbacks := callbacks self; log_data := log_data self;
     request_counter := request_counter self; runtime_id := runtime_id self;
     request_tracking := request_tracking self;
     auto_backup_enabled := auto_backup_enabled self;
     backup_folder := backup_folder self;
     backup_interval_seconds := backup_interval_seconds self;
     last_backup_time := last_backup_time self;
     processing_queue := processing_queue self;
     shutdown_flag := v |}.

(** The timestamp format of the log rows and of the export metadata. *)
Definition stamp (now : Py.datetime) : string :=
  Py.strftime "%Y-%m-%d %H:%M:%S" now.

(** [registerExtenderCallbacks]: the initial attributes.  [home] is
    [os.path.expanduser("~")]. *)
Definition registerExtenderCallbacks
    (cb : IBurpExtenderCallbacks) (now : Py.datetime) (home : string)
  : BurpExtender :=
  {| callbacks := cb;
     log_data := [];
     request_counter := 0;
     runtime_id := Py.strftime "%Y%m%d%H%M%S" now;
     request_tracking := ∅;
     auto_backup_enabled := true;
     backup_folder := Py.path_join home "Desktop";
     backup_interval_seconds := 60;
     last_backup_time := 0;
     processing_queue := [];
     shutdown_flag := false |}.

(** ** Ingest: queue, worker and the two handlers *)

(** [processHttpMessage]: append a work item to the queue. *)
Definition processHttpMessage (self : BurpExtender)
    (toolFlag : Z) (messageIsRequest : bool) (messageInfo : IHttpRequestResponse)
  : BurpExtender :=
  let work_item := {| tool_flag := toolFlag; message_info := messageInfo;
                      is_request := messageIsRequest |} in
  set_processing_queue (processing_queue self ++ [work_item]) self.

(** [_count_insertion_points]: the number of parameters, 0 when there are
    none or when [getParameters] raises. *)
Definition _count_insertion_points (req : IHttpRequestResponse) : Z :=
  match getParameters req with
  | Some params =>
      match params with
      | [] => 0
      | _ :: _ => Z.of_nat (length params)
      end
  | None => 0
  end.

(** The local [req_id] of [_handle_request]: the counter is read, not
    advanced. *)
Definition req_id (self : BurpExtender) : Z := request_counter self + 1.

(** [_handle_request]. *)
Definition _handle_request (self : BurpExtender) (now : Py.datetime)
    (toolFlag : Z) (messageInfo : IHttpRequestResponse) : BurpExtender :=
  let url := getUrl messageInfo in
  let insertion_point_count := _count_insertion_points messageInfo in
  let start_time := stamp now in
  let req_id := req_id self in
  set_request_tracking
    (<[req_id := {| t_start_time := start_time;
                    t_end_time := None;
                    t_insertion_points := insertion_point_count;
                    t_url := url |}]> (request_tracking self))
    self.

(** The status column: ["-"] without response bytes, ["Error"] when
    [analyzeResponse] raises, else [str] of the status code. *)
Definition status_of (res_bytes : response_bytes) : string :=
  match res_bytes with
  | NoResponse => "-"
  | Unparseable => "Error"
  | Analyzed code => Py.str_int code
  end.

(** [sum(1 for entry in self.log_data if entry[3] == url)]. *)
Definition url_matches (u : string) (data : list LogRow) : Z :=
  Z.of_nat (length (List.filter (fun entry => String.eqb (url entry) u) data)).

(** First critical section of [_handle_response] (under [data_lock]):
    advance the counter, read it, count the rows with this URL. *)
Definition response_take_id (self : BurpExtender) (u : string)
  : BurpExtender * Z * Z :=
  let self1 := set_request_counter (request_counter self + 1) self in
  let current_id := request_counter self1 in
  let request_count := url_matches u (log_data self1) + 1 in
  (self1, current_id, request_count).

(** Second critical section (under [tracking_lock]): read the tracking
    entry of [current_id], with the defaults of the two [get] calls, and
    delete it. *)
Definition response_take_tracking (self : BurpExtender) (current_id : Z)
    (end_time : string) : BurpExtender * string * Z :=
  let tracking := request_tracking self !! current_id in
  let start_time := from_option t_start_time end_time tracking in
  let insertion_points := from_option t_insertion_points 0 tracking in
  let self2 :=
    match request_tracking self !! current_id with
    | Some _ => set_request_tracking (delete current_id (request_tracking self)) self
    | None => self
    end in
  (self2, start_time, insertion_points).

(** Third critical section (under [data_lock]): append the row. *)
Definition response_append (self : BurpExtender) (row : LogRow) : BurpExtender :=
  set_log_data (log_data self ++ [row]) self.

(** [_handle_response]. *)
Definition _handle_response (self : BurpExtender) (now : Py.datetime)
    (toolFlag : Z) (messageInfo : IHttpRequestResponse) : BurpExtender :=
  let status := status_of (getResponse messageInfo) in
  let url := getUrl messageInfo in
  let host := getHost messageInfo in
  let method := getMethod messageInfo in
  let tool := getToolName (callbacks self) toolFlag in
  let end_time := stamp now in
  let '(self1, current_id, request_count) := response_take_id self url in
  let '(self2, start_time, insertion_points) :=
    response_take_tracking self1 current_id end_time in
  response_append self2
    {| serial_no := current_id;
       host := host;
       request_method := method;
       url := url;
       status_code := status;
       tool_name := tool;
       request_count := request_count;
       insertion_point_count := insertion_points;
       start_time := start_time;
       end_time := end_time |}.

(** [_process_request_data].  The accessors above are total, so the
    [except] branch, which drops the item, has no case here. *)
Definition _process_request_data (self : BurpExtender) (now : Py.datetime)
    (work_item : WorkItem) : BurpExtender :=
  if is_request work_item
  then _handle_request self now (tool_flag work_item) (message_info work_item)
  else _handle_response self now (tool_flag work_item) (message_info work_item).

(** One turn of the loop of [Worker.run]: pop the head of the queue and
    process it, or sleep when the queue is empty. *)
Definition Worker_iteration (self : BurpExtender) (now : Py.datetime)
  : BurpExtender :=
  match processing_queue self with
  | [] => self
  | work_item :: rest =>
      _process_request_data (set_processing_queue rest self) now work_item
  end.

(** [Worker.run]: [fuel] bounds the number of turns, [clock i] is the clock
    read in turn [i]. *)
Fixpoint Worker_run (fuel : nat) (clock : nat -> Py.datetime)
    (self : BurpExtender) : BurpExtender :=
  match fuel with
  | O => self
  | S fuel' =>
      if shutdown_flag self then self
      else Worker_run fuel' (fun i => clock (S i))
             (Worker_iteration self (clock O))
  end.

(** [clear_logs]; [confirm] is the answer to the dialog. *)
Definition clear_logs (self : BurpExtender) (confirm : bool) : BurpExtender :=
  if confirm
  then set_request_tracking ∅ (set_request_counter 0 (set_log_data [] self))
  else self.

(** ** Export and backup *)

Definition LF : ascii := "010"%char.
Definition CR : ascii := "013"%char.
Definition nl : string := String LF "".

(** The file system: path to content. *)
Abbreviation disk := (gmap string string).

(** How the writes of one export end: all of them succeed; opening the
    file raises (no file is made); or a later write raises, after the file
    was opened and truncated, leaving [on_disk] in it. *)
Inductive io_outcome :=
  | io_ok
  | io_open_fails
  | io_write_fails (on_disk : string).

(** [str(col).replace(",", ";").replace("\n", " ").replace("\r", " ")]. *)
Definition sanitize (col : string) : string :=
  Py.replace CR " " (Py.replace LF " " (Py.replace "," ";" col)).

Definition column_headers : string :=
  "Serial No,Host,Request Method,URL,Status Code,Tool Name,Request Count,Insertion Point Count,Start Time,End Time".

(** The argument of the [writer.write] call of one row. *)
Definition csv_row (row : LogRow) : string :=
  Py.join "," (map sanitize (columns row)) +:+ nl.

(** The arguments of the [writer.write] calls of [_write_full_csv], in
    order.  [t_header] and [t_footer] are the two clock readings. *)
Definition csv_writes (self : BurpExtender) (data_snapshot : list LogRow)
    (t_header t_footer : Py.datetime) : list string :=
  [ "# Generated By: SAVER_LOGGER" +:+ nl;
    "# Session ID: " +:+ runtime_id self +:+ nl;
    "# Export Time: " +:+ stamp t_header +:+ nl;
    "# Total Requests: " +:+ Py.str_int (Z.of_nat (length data_snapshot))
      +:+ nl +:+ nl;
    column_headers +:+ nl ]
  ++ map csv_row data_snapshot
  ++ [ nl +:+ "# --- FOOTER METADATA ---" +:+ nl;
       "# Burp Suite Version: " +:+ (getBurpVersion (callbacks self)).1.1 +:+ nl;
       "# Exported: " +:+ stamp t_footer +:+ nl;
       "# Runtime ID: " +:+ runtime_id self +:+ nl;
       "# Total Requests Logged: "
         +:+ Py.str_int (Z.of_nat (length data_snapshot)) +:+ nl ].

(** [_write_full_csv]: the result and the file system after it. *)
Definition _write_full_csv (self : BurpExtender) (filepath : string)
    (t_header t_footer : Py.datetime) (io : io_outcome) (fs : disk)
  : bool * disk :=
  match log_data self with
  | [] => (false, fs)
  | _ :: _ =>
      let data_snapshot := log_data self in
      match io with
      | io_open_fails => (false, fs)
      | io_write_fails on_disk => (false, <[filepath := on_disk]> fs)
      | io_ok =>
          (true,
           <[filepath :=
               String.concat "" (csv_writes self data_snapshot t_header t_footer)]>
             fs)
      end
  end.

(** [_auto_backup]: the fixed file name, nothing on an empty store. *)
Definition _auto_backup (self : BurpExtender)
    (t_header t_footer : Py.datetime) (io : io_outcome) (fs : disk) : disk :=
  let has_data := negb (Nat.eqb (length (log_data self)) 0) in
  if negb has_data then fs
  else
    let filename := "SAVER_LOGGER_AUTOSAVE.csv" in
    let filepath := Py.path_join (backup_folder self) filename in
    (_write_full_csv self filepath t_header t_footer io fs).2.

(** [backup_now]: the text of the dialog it shows and the file system. *)
Definition backup_now (self : BurpExtender) (now : Py.datetime)
    (t_header t_footer : Py.datetime) (io : io_outcome) (fs : disk)
  : string * disk :=
  let timestamp := Py.strftime "%d%m%Y_%H%M%S" now in
  let filename := "SAVER_LOGGER_BACKUP_" +:+ timestamp +:+ ".csv" in
  let filepath := Py.path_join (backup_folder self) filename in
  let '(result, fs') := _write_full_csv self filepath t_header t_footer io fs in
  if result
  then
    let count := Z.of_nat (length (log_data self)) in
    ("Backup completed successfully!" +:+ nl +:+ Py.str_int count
       +:+ " requests saved to:" +:+ nl +:+ filepath, fs')
  else ("Backup failed! Check console for errors.", fs').

(** [export_csv_manual]: [chosen] is the path picked in the file chooser,
    [None] when the chooser is cancelled; the result is the dialog shown,
    if any. *)
Definition export_csv_manual (self : BurpExtender) (chosen : option string)
    (t_header t_footer : Py.datetime) (io : io_outcome) (fs : disk)
  : option string * disk :=
  let has_data := negb (Nat.eqb (length (log_data self)) 0) in
  if negb has_data then (Some "No data to export!", fs)
  else
    match chosen with
    | None => (None, fs)
    | Some path =>
        let filepath :=
          if Py.endswith_str ".csv" path then path else path +:+ ".csv" in
        let '(result, fs') :=
          _write_full_csv self filepath t_header t_footer io fs in
        if result
        then
          let count := Z.of_nat (length (log_data self)) in
          (Some ("Export successful!" +:+ nl +:+ Py.str_int count
                   +:+ " requests saved to:" +:+ nl +:+ filepath), fs')
        else (Some "Export failed! Check console for errors.", fs')
    end.

(** [extensionUnloaded]: stop the worker, then a last backup under a
    time-stamped name when there is data. *)
Definition extensionUnloaded (self : BurpExtender) (now : Py.datetime)
    (t_header t_footer : Py.datetime) (io : io_outcome) (fs : disk)
  : BurpExtender * disk :=
  let self' := set_shutdown_flag true self in
  let has_data := negb (Nat.eqb (length (log_data self')) 0) in
  if has_data
  then
    let timestamp := Py.strftime "%d%m%Y_%H%M%S" now in
    let filename := "SAVER_LOGGER_AUTOSAVE_" +:+ timestamp +:+ ".csv" in
    let filepath := Py.path_join (backup_folder self') filename in
    (self', (_write_full_csv self' filepath t_header t_footer io fs).2)
  else (self', fs).

(** ** Scheduler *)

(** The test of [Task.run]: auto-backup is on and the clock, in whole
    seconds, is at least the interval past [last_backup_time].  [millis] is
    [System.currentTimeMillis()]; [/] on Python 2 integers is floor
    division. *)
Definition Task_due (self : BurpExtender) (millis : Z) : bool :=
  auto_backup_enabled self
  && (let current_time := millis / 1000 in
      (backup_interval_seconds self <=? current_time - last_backup_time self)%Z).

(** [Task.run]: one tick of the timer. *)
Definition Task_run (self : BurpExtender) (millis : Z)
    (t_header t_footer : Py.datetime) (io : io_outcome) (fs : disk)
  : BurpExtender * disk :=
  if Task_due self millis
  then
    let current_time := millis / 1000 in
    let fs' := _auto_backup self t_header t_footer io fs in
    (set_last_backup_time current_time self, fs')
  else (self, fs).

(** ** Runs of the whole extension *)

(** What can happen to a loaded extension: a message is observed, the
    worker takes a turn, the timer ticks, or the user presses a button. *)
Inductive action :=
  | Observe (toolFlag : Z) (messageIsRequest : bool)
            (messageInfo : IHttpRequestResponse)
  | WorkerTurn (now : Py.datetime)
  | Tick (millis : Z) (t_header t_footer : Py.datetime) (io : io_outcome)
  | BackupNow (now t_header t_footer : Py.datetime) (io : io_outcome)
  | ExportManual (chosen : option string) (t_header t_footer : Py.datetime)
                 (io : io_outcome)
  | ClearLogs (confirm : bool).

Definition do_action (st : BurpExtender * disk) (a : action)
  : BurpExtender * disk :=
  let '(self, fs) := st in
  match a with
  | Observe toolFlag messageIsRequest messageInfo =>
      (processHttpMessage self toolFlag messageIsRequest messageInfo, fs)
  | WorkerTurn now => (Worker_iteration self now, fs)
  | Tick millis t_header t_footer io => Task_run self millis t_header t_footer io fs
  | BackupNow now t_header t_footer io =>
      (self, (backup_now self now t_header t_footer io fs).2)
  | ExportManual chosen t_header t_footer io =>
      (self, (export_csv_manual self chosen t_header t_footer io fs).2)
  | ClearLogs confirm => (clear_logs self confirm, fs)
  end.

Definition run (st : BurpExtender * disk) (acts : list action)
  : BurpExtender * disk :=
  fold_left do_action acts st.


(** ** Reading an exported file back *)

(** The data rows of an export: the lines after the column-header line up
    to the next empty line, each split at the commas. *)
Fixpoint after_headers (lines : list string) : list string :=
  match lines with
  | [] => []
  | l :: rest => if String.eqb l column_headers then rest else after_headers rest
  end.

Fixpoint until_blank (lines : list string) : list string :=
  match lines with
  | [] => []
  | l :: rest => if String.eqb l "" then [] else l :: until_blank rest
  end.

Definition csv_body (content : string) : list (list string) :=
  map (Py.split ",") (until_blank (after_headers (Py.split LF content))).

(** The text of one data row, without its line end. *)
Definition row_text (row : LogRow) : string :=
  Py.join "," (map sanitize (columns row)).

(** Lines, each followed by a line feed. *)
Definition unlines (lines : list string) : string :=
  fold_right (fun l text => l +:+ String LF text) "" lines.

(** The substitution as the specification words it: a comma becomes a
    semicolon, a line feed or a carriage return becomes a space, any other
    character stays. *)
Definition substitute_char (c : ascii) : ascii :=
  if Ascii.eqb c "," then ";"%char
  else if Ascii.eqb c LF || Ascii.eqb c CR then " "%char
  else c.

Definition substituted (col : string) : string :=
  string_of_list_ascii (map substitute_char (Py.chars col)).

(** ** Derived notions used in the statements *)

(** The tracking entry [_handle_request] stores. *)
Definition pending_of (now : Py.datetime) (messageInfo : IHttpRequestResponse)
  : Tracking :=
  {| t_start_time := stamp now;
     t_end_time := None;
     t_insertion_points := _count_insertion_points messageInfo;
     t_url := getUrl messageInfo |}.

(** The row [_handle_response] appends, written out. *)
Definition finalized_row (self : BurpExtender) (now : Py.datetime)
    (toolFlag : Z) (messageInfo : IHttpRequestResponse) : LogRow :=
  let current_id := request_counter self + 1 in
  let tracking := request_tracking self !! current_id in
  {| serial_no := current_id;
     host := getHost messageInfo;
     request_method := getMethod messageInfo;
     url := getUrl messageInfo;
     status_code := status_of (getResponse messageInfo);
     tool_name := getToolName (callbacks self) toolFlag;
     request_count := url_matches (getUrl messageInfo) (log_data self) + 1;
     insertion_point_count := from_option t_insertion_points 0 tracking;
     start_time := from_option t_start_time (stamp now) tracking;
     end_time := stamp now |}.

(** The handlers of a list of requests, in order. *)
Definition handle_requests (self : BurpExtender)
    (reqs : list (Py.datetime * Z * IHttpRequestResponse)) : BurpExtender :=
  fold_left (fun s r => _handle_request s r.1.1 r.1.2 r.2) reqs self.



(** A confirmed clear. *)
Definition clears (a : action) : bool :=
  match a with ClearLogs confirm => confirm | _ => false end.


(** The lines written before the column headers, given the run identifier,
    the export time and the row count as text. *)
Definition header_lines (rid ts n : string) : list string :=
  [ "# Generated By: SAVER_LOGGER"; "# Session ID: " +:+ rid;
    "# Export Time: " +:+ ts; "# Total Requests: " +:+ n; "" ].

(** ** Concrete inputs *)

Module Sample.

Definition cb : IBurpExtenderCallbacks :=
  {| getToolName := fun flag => if (flag =? 4)%Z then "Proxy" else "Intruder";
     getBurpVersion := ("Burp Suite Professional", "2024", "1.1") |}.

Definition at_second (s : nat) : Py.datetime :=
  {| Py.year := 2024; Py.month := 3; Py.day := 9;
     Py.hour := 14; Py.minute := 5; Py.second := s |}.

Definition message (u : string) (params : list string) (res : response_bytes)
  : IHttpRequestResponse :=
  {| getUrl := u; getMethod := "GET"; getParameters := Some params;
     getHost := "a"; getResponse := res |}.

Definition loaded : BurpExtender :=
  registerExtenderCallbacks cb (at_second 0) "/home/user".

(** One finalized row: a request and its response went through the worker. *)
Definition one_row : BurpExtender :=
  (run (loaded, ∅)
     [ Observe 4 true (message "https://a/x" ["q"; "id"] NoResponse);
       Observe 4 false (message "https://a/x" ["q"; "id"] (Analyzed 200));
       WorkerTurn (at_second 1);
       WorkerTurn (at_second 2) ]).1.


Definition clock (i : nat) : Py.datetime := at_second (10 + i).

Definition autosave_path : string := "/home/user/Desktop/SAVER_LOGGER_AUTOSAVE.csv".
Definition backup_path : string :=
  "/home/user/Desktop/SAVER_LOGGER_BACKUP_09032024_140503.csv".

End Sample.

(** ** Settings and the backup timer *)






(** ** Notions for the further properties *)

(** [processHttpMessage] on a list of work items, in order. *)
Definition observe_all (self : BurpExtender) (items : list WorkItem)
  : BurpExtender :=
  fold_left (fun s w => processHttpMessage s (tool_flag w) (is_request w)
                          (message_info w)) items self.

(** The handlers on a list of work items in order; [clock i] is the clock
    read for item [i]. *)
Fixpoint process_in_order (clock : nat -> Py.datetime) (items : list WorkItem)
    (self : BurpExtender) : BurpExtender :=
  match items with
  | [] => self
  | w :: rest =>
      process_in_order (fun i => clock (S i)) rest
        (_process_request_data self (clock O) w)
  end.

(** A text without comma, line feed and carriage return. *)
Definition clean (s : string) : bool :=
  negb (Py.contains "," s || Py.contains LF s || Py.contains CR s).

(** The seven text columns of a row. *)
Definition text_columns (row : LogRow) : list string :=
  [ host row; request_method row; url row; status_code row; tool_name row;
    start_time row; end_time row ].

(** Actions by kind. *)
Definition is_tick (a : action) : bool :=
  match a with Tick _ _ _ _ => true | _ => false end.

Definition is_worker_turn (a : action) : bool :=
  match a with WorkerTurn _ => true | _ => false end.

(** The path of the automatic backup. *)
Definition autosave_file (self : BurpExtender) : string :=
  Py.path_join (backup_folder self) "SAVER_LOGGER_AUTOSAVE.csv".





(** The lines written after the rows, given the product name, the export
    time, the run identifier and the row count as text. *)
Definition footer_lines (version ts rid n : string) : list string :=
  [ ""; "# --- FOOTER METADATA ---"; "# Burp Suite Version: " +:+ version;
    "# Exported: " +:+ ts; "# Runtime ID: " +:+ rid;
    "# Total Requests Logged: " +:+ n ].

(** Further concrete inputs. *)
Module SampleX.

Definition busy : IHttpRequestResponse :=
  {| getUrl := "https://a/x?q=1,2"; getMethod := "POST";
     getParameters := Some ["q"; "r"; "s"];
     getHost := "a" +:+ String CR (String LF "b");
     getResponse := Analyzed 302 |}.

Definition items : list WorkItem :=
  [ {| tool_flag := 4; message_info := Sample.message "https://a/x" ["q"] NoResponse;
       is_request := true |};
    {| tool_flag := 4; message_info := Sample.message "https://a/x" ["q"] (Analyzed 200);
       is_request := false |};
    {| tool_flag := 32; message_info := busy; is_request := false |} ].

Definition ticks : list action :=
  [ Tick 1709993104000 (Sample.at_second 4) (Sample.at_second 4) io_ok;
    Tick 1709993164000 (Sample.at_second 5) (Sample.at_second 5) io_ok;
    Tick 1709993224000 (Sample.at_second 6) (Sample.at_second 6)
      (io_write_fails "# Gen") ].

Definition quiet : list action :=
  [ Observe 4 true busy;
    Tick 1709993104000 (Sample.at_second 4) (Sample.at_second 4) io_ok;
    BackupNow (Sample.at_second 5) (Sample.at_second 5) (Sample.at_second 5) io_ok;
    ExportManual (Some "/tmp/e") (Sample.at_second 6) (Sample.at_second 6) io_ok;
    ClearLogs false ].

End SampleX.

(** * Properties *)

(** ** The two handlers, field by field *)

Section Handlers.

Variables (self : BurpExtender) (now : Py.datetime) (toolFlag : Z)
          (messageInfo : IHttpRequestResponse).

Lemma handle_request_counter :
  request_counter (_handle_request self now toolFlag messageInfo)
  = request_counter self.
Proof. reflexivity. Qed.


Lemma handle_request_tracking :
  request_tracking (_handle_request self now toolFlag messageInfo)
  = <[req_id self := pending_of now messageInfo]> (request_tracking self).
Proof. reflexivity. Qed.

Lemma handle_response_log :
  log_data (_handle_response self now toolFlag messageInfo)
  = log_data self ++ [finalized_row self now toolFlag messageInfo].
Proof.
  unfold _handle_response, response_take_id, response_take_tracking,
    finalized_row. simpl.
  destruct (request_tracking self !! (request_counter self + 1)); reflexivity.
Qed.

Lemma handle_response_counter :
  request_counter (_handle_response self now toolFlag messageInfo)
  = request_counter self + 1.
Proof.
  unfold _handle_response, response_take_id, response_take_tracking. simpl.
  destruct (request_tracking self !! (request_counter self + 1)); reflexivity.
Qed.

Lemma handle_response_tracking :
  request_tracking (_handle_response self now toolFlag messageInfo)
  = delete (request_counter self + 1) (request_tracking self).
Proof.
  unfold _handle_response, response_take_id, response_take_tracking. simpl.
  destruct (request_tracking self !! (request_counter self + 1)) eqn:E; simpl.
  - reflexivity.
  - symmetry. by apply delete_id.
Qed.

End Handlers.

Lemma url_matches_app (u : string) (l1 l2 : list LogRow) :
  url_matches u (l1 ++ l2) = url_matches u l1 + url_matches u l2.
Proof.
  unfold url_matches. rewrite List.filter_app, length_app. lia.
Qed.

(** ** C1: request identifiers *)

(** C1 (as the code has it): a request event reads the shared counter
    without advancing it and stores its PendingRequest under counter + 1,
    replacing what was there; a second request processed right after the
    first is given the same identifier, and only its entry remains. *)
Theorem handle_request_reads_counter
    (self : BurpExtender) (now1 now2 : Py.datetime) (tf1 tf2 : Z)
    (m1 m2 : IHttpRequestResponse) :
  let self1 := _handle_request self now1 tf1 m1 in
  let self2 := _handle_request self1 now2 tf2 m2 in
  request_counter self1 = request_counter self
  /\ log_data self1 = log_data self
  /\ request_tracking self1
     = <[request_counter self + 1 := pending_of now1 m1]> (request_tracking self)
  /\ req_id self1 = req_id self
  /\ request_tracking self2
     = <[req_id self := pending_of now2 m2]> (request_tracking self).
Proof.
  cbv zeta. split; [reflexivity|]. split; [reflexivity|].
  split; [reflexivity|]. split; [reflexivity|].
  rewrite !handle_request_tracking.
  change (req_id (_handle_request self now1 tf1 m1)) with (req_id self).
  apply insert_insert_eq.
Qed.

(** C1 (counterexample): from the freshly loaded extension two requests
    for different URLs are processed in succession; both are given
    identifier 1, the second identifier is not greater than the first, and
    the table holds one entry, the second request's. *)
Lemma two_requests_one_identifier :
  let m1 := Sample.message "https://a/x" ["q"] NoResponse in
  let m2 := Sample.message "https://a/y" [] NoResponse in
  let self1 := _handle_request Sample.loaded (Sample.at_second 1) 4 m1 in
  let self2 := _handle_request self1 (Sample.at_second 2) 4 m2 in
  req_id Sample.loaded = 1
  /\ req_id self1 = 1
  /\ ~ (req_id Sample.loaded < req_id self1)
  /\ request_tracking self2 !! 1 = Some (pending_of (Sample.at_second 2) m2)
  /\ size (request_tracking self2) = 1%nat.
Proof.
  simpl. repeat split; try reflexivity.
  unfold req_id; simpl; lia.
Qed.

(** ** C3: the per-URL count *)

(** C3: the row a response appends carries, as its request count, the
    number of rows of the store after the append (itself included) whose
    URL is string-equal to its own. *)
Theorem request_count_is_url_occurrences
    (self : BurpExtender) (now : Py.datetime) (toolFlag : Z)
    (messageInfo : IHttpRequestResponse) :
  let self' := _handle_response self now toolFlag messageInfo in
  exists row,
    log_data self' = log_data self ++ [row]
    /\ url row = getUrl messageInfo
    /\ request_count row = url_matches (url row) (log_data self')
    /\ request_count row
       = Z.of_nat (length (List.filter (fun r => String.eqb (url r) (url row))
                                       (log_data self'))).
Proof.
  cbv zeta. exists (finalized_row self now toolFlag messageInfo).
  rewrite handle_response_log.
  assert (H : request_count (finalized_row self now toolFlag messageInfo)
              = url_matches (getUrl messageInfo)
                  (log_data self ++ [finalized_row self now toolFlag messageInfo])).
  { rewrite url_matches_app.
    assert (Hself : url_matches (getUrl messageInfo)
                      [finalized_row self now toolFlag messageInfo] = 1).
    { unfold url_matches. simpl. rewrite String.eqb_refl. reflexivity. }
    rewrite Hself. reflexivity. }
  split; [reflexivity|]. split; [reflexivity|]. split; exact H.
Qed.

(** The example of the specification: three responses for one URL, then
    one for another. *)
Example request_counts_1_2_3_1 :
  let respond u self := _handle_response self (Sample.at_second 5) 4
                          (Sample.message u [] (Analyzed 200)) in
  map request_count
    (log_data (respond "https://a/y"
                 (respond "https://a/x"
                    (respond "https://a/x"
                       (respond "https://a/x" Sample.loaded)))))
  = [1; 2; 3; 1].
Proof. reflexivity. Qed.

(** ** C4: a response without a pending request *)

(** C4: when the table has no entry under the serial number the response
    is given, the response still appends exactly one row, with
    insertion-point count 0 and start time equal to end time, both the
    arrival time of the response. *)
Theorem unmatched_response_defaults
    (self : BurpExtender) (now : Py.datetime) (toolFlag : Z)
    (messageInfo : IHttpRequestResponse) :
  request_tracking self !! (request_counter self + 1) = None ->
  let self' := _handle_response self now toolFlag messageInfo in
  exists row,
    log_data self' = log_data self ++ [row]
    /\ serial_no row = request_counter self + 1
    /\ insertion_point_count row = 0
    /\ start_time row = end_time row
    /\ end_time row = stamp now.
Proof.
  intros Hnone. cbv zeta. exists (finalized_row self now toolFlag messageInfo).
  rewrite handle_response_log. unfold finalized_row. simpl.
  rewrite Hnone. repeat split.
Qed.

Lemma unmatched_response_defaults_witness :
  exists row,
    log_data (_handle_response Sample.one_row (Sample.at_second 9) 4
                (Sample.message "https://a/z" ["p"] (Analyzed 404)))
    = log_data Sample.one_row ++ [row]
    /\ serial_no row = request_counter Sample.one_row + 1
    /\ insertion_point_count row = 0
    /\ start_time row = end_time row
    /\ end_time row = stamp (Sample.at_second 9).
Proof.
  apply (unmatched_response_defaults Sample.one_row (Sample.at_second 9) 4
           (Sample.message "https://a/z" ["p"] (Analyzed 404))).
  reflexivity.
Defined.

(** ** C5: the table after a response *)

(** C5: after a response is processed the table has no entry under the
    serial number given to that response, and every other entry is as it
    was. *)
Theorem response_removes_pending
    (self : BurpExtender) (now : Py.datetime) (toolFlag : Z)
    (messageInfo : IHttpRequestResponse) :
  let self' := _handle_response self now toolFlag messageInfo in
  let current_id := request_counter self' in
  (exists row, log_data self' = log_data self ++ [row]
               /\ serial_no row = current_id)
  /\ request_tracking self' !! current_id = None
  /\ request_tracking self' = delete current_id (request_tracking self).
Proof.
  cbv zeta. rewrite handle_response_counter, handle_response_tracking,
    handle_response_log.
  split; [|split].
  - eexists; split; reflexivity.
  - apply lookup_delete_eq.
  - reflexivity.
Qed.

(** ** Runs: the counter, the store and the queue *)







Lemma Task_run_self self millis t1 t2 io fs :
  (Task_run self millis t1 t2 io fs).1 = self
  \/ (Task_run self millis t1 t2 io fs).1
     = set_last_backup_time (millis / 1000) self.
Proof. unfold Task_run. destruct (Task_due self millis); auto. Qed.


Lemma run_snoc st acts a : run st (acts ++ [a]) = do_action (run st acts) a.
Proof. unfold run. by rewrite fold_left_app. Qed.





Lemma process_queue self now w :
  processing_queue (_process_request_data self now w) = processing_queue self.
Proof.
  unfold _process_request_data. destruct (is_request w); [reflexivity|].
  unfold _handle_response, response_take_id, response_take_tracking. simpl.
  destruct (request_tracking self !! (request_counter self + 1)); reflexivity.
Qed.

Lemma process_shutdown_flag self now w :
  shutdown_flag (_process_request_data self now w) = shutdown_flag self.
Proof.
  unfold _process_request_data. destruct (is_request w); [reflexivity|].
  unfold _handle_response, response_take_id, response_take_tracking. simpl.
  destruct (request_tracking self !! (request_counter self + 1)); reflexivity.
Qed.




(** ** C2: dense serial numbers *)



(** ** C7: clear *)

Lemma handle_requests_counter reqs : forall self,
  request_counter (handle_requests self reqs) = request_counter self
  /\ log_data (handle_requests self reqs) = log_data self.
Proof.
  induction reqs as [|r reqs IH]; intros self; simpl; [split; reflexivity|].
  destruct (IH (_handle_request self r.1.1 r.1.2 r.2)) as [Hc Hl].
  unfold handle_requests in *. rewrite Hc, Hl. split; reflexivity.
Qed.

(** C7: a confirmed clear leaves an empty store, an empty table and
    counter 0; clearing again changes nothing; and the next row finalized
    after a clear, whatever requests were processed in between, has serial
    number 1 and is the only row of the store. *)
Theorem clear_idempotent_and_resets
    (self : BurpExtender)
    (reqs : list (Py.datetime * Z * IHttpRequestResponse))
    (now : Py.datetime) (toolFlag : Z) (messageInfo : IHttpRequestResponse) :
  let cleared := clear_logs self true in
  clear_logs cleared true = cleared
  /\ log_data cleared = []
  /\ request_tracking cleared = ∅
  /\ request_counter cleared = 0
  /\ exists row,
       log_data (_handle_response (handle_requests cleared reqs)
                   now toolFlag messageInfo) = [row]
       /\ serial_no row = 1.
Proof.
  cbv zeta. split; [reflexivity|]. split; [reflexivity|].
  split; [reflexivity|]. split; [reflexivity|].
  destruct (handle_requests_counter reqs (clear_logs self true)) as [Hc Hl].
  eexists. rewrite handle_response_log, Hl. split; [reflexivity|].
  unfold finalized_row. cbn [serial_no]. rewrite Hc. reflexivity.
Qed.

(** ** C10: the counter between events *)


(** ** C6: exporting an empty store *)

(** C6: with an empty store, [_write_full_csv] returns [False],
    the manual backup and the manual export report failure in their dialog,
    the automatic backup and the backup at unload do nothing, and none of
    them changes the file system, whatever the path, the clock and the
    state of the disk. *)
Theorem empty_store_export_fails
    (self : BurpExtender) (filepath : string) (chosen : option string)
    (now t_header t_footer : Py.datetime) (io : io_outcome) (fs : disk) :
  log_data self = [] ->
  _write_full_csv self filepath t_header t_footer io fs = (false, fs)
  /\ _auto_backup self t_header t_footer io fs = fs
  /\ backup_now self now t_header t_footer io fs
     = ("Backup failed! Check console for errors.", fs)
  /\ export_csv_manual self chosen t_header t_footer io fs
     = (Some "No data to export!", fs)
  /\ (extensionUnloaded self now t_header t_footer io fs).2 = fs.
Proof.
  intros Hempty.
  unfold _auto_backup, backup_now, export_csv_manual, extensionUnloaded,
    _write_full_csv.
  simpl. rewrite Hempty. simpl. repeat split.
Qed.

Lemma empty_store_export_fails_witness :
  _write_full_csv Sample.loaded "/tmp/out.csv" (Sample.at_second 1)
    (Sample.at_second 1) io_ok ∅ = (false, ∅)
  /\ _auto_backup Sample.loaded (Sample.at_second 1) (Sample.at_second 1)
       io_ok ∅ = ∅
  /\ backup_now Sample.loaded (Sample.at_second 1) (Sample.at_second 1)
       (Sample.at_second 1) io_ok ∅
     = ("Backup failed! Check console for errors.", ∅)
  /\ export_csv_manual Sample.loaded (Some "/tmp/out") (Sample.at_second 1)
       (Sample.at_second 1) io_ok ∅
     = (Some "No data to export!", ∅)
  /\ (extensionUnloaded Sample.loaded (Sample.at_second 1) (Sample.at_second 1)
        (Sample.at_second 1) io_ok ∅).2 = ∅.
Proof.
  apply (empty_store_export_fails Sample.loaded "/tmp/out.csv" (Some "/tmp/out")
           (Sample.at_second 1) (Sample.at_second 1) (Sample.at_second 1)
           io_ok ∅).
  reflexivity.
Defined.

(** ** C9: the timer tick *)

(** C9 (as the code has it): a tick runs the automatic backup exactly
    when auto-backup is enabled and the clock, in whole seconds, is at
    least the interval past [last_backup_time]; it then sets
    [last_backup_time] to that clock reading, and otherwise changes nothing.
    So of two ticks whose whole-second readings are less than the interval
    apart, with nothing but manual backups in between, the second changes
    nothing when the first ran the backup.  A manual backup leaves
    [last_backup_time] as it was. *)
Theorem tick_runs_backup_when_due
    (self : BurpExtender) (millis1 millis2 : Z)
    (t1 t2 t3 t4 t5 t6 now : Py.datetime) (io1 io2 io3 : io_outcome) (fs : disk) :
  millis2 / 1000 - millis1 / 1000 < backup_interval_seconds self ->
  let first := Task_run self millis1 t1 t2 io1 fs in
  let manual := do_action first (BackupNow now t3 t4 io2) in
  let second := Task_run manual.1 millis2 t5 t6 io3 manual.2 in
  (Task_due self millis1 = true <->
     auto_backup_enabled self = true
     /\ backup_interval_seconds self <= millis1 / 1000 - last_backup_time self)
  /\ (Task_due self millis1 = false -> first = (self, fs))
  /\ (Task_due self millis1 = true ->
        first = (set_last_backup_time (millis1 / 1000) self,
                 _auto_backup self t1 t2 io1 fs)
        /\ second = manual)
  /\ last_backup_time manual.1 = last_backup_time first.1.
Proof.
  intros Hclose. cbv zeta. split; [|split; [|split]].
  - unfold Task_due. rewrite andb_true_iff, Z.leb_le. reflexivity.
  - intros Hdue. unfold Task_run. rewrite Hdue. reflexivity.
  - intros Hdue.
    assert (H1 : Task_run self millis1 t1 t2 io1 fs
                 = (set_last_backup_time (millis1 / 1000) self,
                    _auto_backup self t1 t2 io1 fs))
      by (unfold Task_run; rewrite Hdue; reflexivity).
    rewrite H1. split; [reflexivity|].
    simpl. unfold Task_run, Task_due. simpl.
    replace (backup_interval_seconds self <=? millis2 / 1000 - millis1 / 1000)%Z
      with false by (symmetry; apply Z.leb_gt; exact Hclose).
    rewrite andb_false_r. reflexivity.
  - destruct (Task_run self millis1 t1 t2 io1 fs). reflexivity.
Qed.

Lemma tick_runs_backup_when_due_witness :
  let self := Sample.one_row in
  let t := Sample.at_second 4 in
  let first := Task_run self 1709993104000 t t io_ok ∅ in
  let manual := do_action first (BackupNow t t t io_ok) in
  let second := Task_run manual.1 1709993134999 t t io_ok manual.2 in
  (Task_due self 1709993104000 = true <->
     auto_backup_enabled self = true
     /\ backup_interval_seconds self
        <= 1709993104000 / 1000 - last_backup_time self)
  /\ (Task_due self 1709993104000 = false -> first = (self, ∅))
  /\ (Task_due self 1709993104000 = true ->
        first = (set_last_backup_time (1709993104000 / 1000) self,
                 _auto_backup self t t io_ok ∅)
        /\ second = manual)
  /\ last_backup_time manual.1 = last_backup_time first.1.
Proof.
  apply (tick_runs_backup_when_due Sample.one_row 1709993104000 1709993134999
           (Sample.at_second 4) (Sample.at_second 4) (Sample.at_second 4)
           (Sample.at_second 4) (Sample.at_second 4) (Sample.at_second 4)
           (Sample.at_second 4) io_ok io_ok io_ok ∅).
  vm_compute. reflexivity.
Defined.

(** C9 (counterexample): the store holds one row and no automatic backup
    has been made.  The user presses the manual backup button at 14:05:03,
    which writes the time-stamped backup file; the timer ticks one second
    later, far less than the 60-second interval after the manual backup.
    The tick is due and writes the autosave file.  Also, two ticks 59001
    milliseconds apart, less than the interval, are both due, since the
    test compares whole seconds. *)
Lemma tick_after_manual_backup_runs_backup :
  let self := Sample.one_row in
  let t := Sample.at_second 3 in
  let fs1 := (backup_now self t t t io_ok ∅).2 in
  let tick := Task_run self 1709993104000 (Sample.at_second 4)
                (Sample.at_second 4) io_ok fs1 in
  (backup_now self t t t io_ok ∅).1
  = "Backup completed successfully!" +:+ nl +:+ "1 requests saved to:" +:+ nl
      +:+ Sample.backup_path
  /\ is_Some (fs1 !! Sample.backup_path)
  /\ fs1 !! Sample.autosave_path = None
  /\ 1709993104000 / 1000 - 1709993103000 / 1000
     < backup_interval_seconds self
  /\ Task_due self 1709993104000 = true
  /\ is_Some (tick.2 !! Sample.autosave_path)
  /\ tick.2 <> fs1
  /\ 1709993164000 - 1709993104999 < backup_interval_seconds self * 1000
  /\ Task_due self 1709993104999 = true
  /\ Task_due (Task_run self 1709993104999 t t io_ok ∅).1 1709993164000 = true.
Proof.
  cbv zeta.
  assert (Hnone : (backup_now Sample.one_row (Sample.at_second 3)
                     (Sample.at_second 3) (Sample.at_second 3) io_ok ∅).2
                  !! Sample.autosave_path = None) by (vm_compute; reflexivity).
  assert (Hsome : is_Some
            ((Task_run Sample.one_row 1709993104000 (Sample.at_second 4)
                (Sample.at_second 4) io_ok
                (backup_now Sample.one_row (Sample.at_second 3)
                   (Sample.at_second 3) (Sample.at_second 3) io_ok ∅).2).2
             !! Sample.autosave_path)) by (vm_compute; eexists; reflexivity).
  split; [vm_compute; reflexivity|].
  split; [vm_compute; eexists; reflexivity|].
  split; [exact Hnone|].
  split; [vm_compute; reflexivity|].
  split; [vm_compute; reflexivity|].
  split; [exact Hsome|].
  split.
  { intros Heq. rewrite Heq, Hnone in Hsome. destruct Hsome as [? Hsome].
    discriminate Hsome. }
  split; [vm_compute; reflexivity|].
  split; vm_compute; reflexivity.
Qed.

(** ** Text lemmas for the exported file *)

Module Text.

Import Py.

#[local] Arguments Strings.String.append : simpl nomatch.

Lemma append_assoc (a b c : string) : (a +:+ b) +:+ c = a +:+ (b +:+ c).
Proof. induction a as [|x a IH]; simpl; [reflexivity | by rewrite IH]. Qed.

Lemma append_nil_r (a : string) : a +:+ "" = a.
Proof. induction a as [|x a IH]; simpl; [reflexivity | by rewrite IH]. Qed.

Lemma contains_app c a b : contains c (a +:+ b) = contains c a || contains c b.
Proof.
  induction a as [|x a IH]; simpl; [reflexivity|].
  rewrite IH. by rewrite orb_assoc.
Qed.

Lemma replace_removes old new s :
  Ascii.eqb new old = false -> contains old (replace old new s) = false.
Proof.
  intros Hne. induction s as [|x s IH]; simpl; [reflexivity|].
  rewrite IH, orb_false_r.
  destruct (Ascii.eqb x old) eqn:E; [exact Hne | exact E].
Qed.

Lemma replace_keeps_absent c old new s :
  Ascii.eqb new c = false -> contains c s = false ->
  contains c (replace old new s) = false.
Proof.
  intros Hne. induction s as [|x s IH]; simpl; [reflexivity|].
  intros H. apply orb_false_elim in H as [Hx Hs].
  rewrite (IH Hs), orb_false_r.
  destruct (Ascii.eqb x old); [exact Hne | exact Hx].
Qed.

Lemma sanitize_no_comma col : contains "," (sanitize col) = false.
Proof.
  unfold sanitize.
  apply replace_keeps_absent; [reflexivity|].
  apply replace_keeps_absent; [reflexivity|].
  apply replace_removes. reflexivity.
Qed.

Lemma sanitize_no_LF col : contains LF (sanitize col) = false.
Proof.
  unfold sanitize.
  apply replace_keeps_absent; [reflexivity|].
  apply replace_removes. reflexivity.
Qed.

Lemma sanitize_no_CR col : contains CR (sanitize col) = false.
Proof. unfold sanitize. apply replace_removes. reflexivity. Qed.

(** The chain of [replace] calls is the substitution of the
    specification. *)
Lemma sanitize_substituted col : sanitize col = substituted col.
Proof.
  unfold sanitize, substituted.
  induction col as [|x col IH]; simpl; [reflexivity|].
  rewrite IH. f_equal. unfold substitute_char.
  destruct (Ascii.eqb x ",") eqn:E1.
  - apply Ascii.eqb_eq in E1. subst x. reflexivity.
  - destruct (Ascii.eqb x LF) eqn:E2; simpl; [reflexivity|].
    destruct (Ascii.eqb x CR) eqn:E3; reflexivity.
Qed.

Lemma string_of_chars s : string_of_list_ascii (chars s) = s.
Proof. induction s as [|x s IH]; simpl; [reflexivity | by rewrite IH]. Qed.

Lemma split_acc_piece sep l : forall acc rest,
  contains sep l = false ->
  split_acc sep acc (l +:+ String sep rest)
  = string_of_list_ascii (rev acc ++ chars l) :: split_acc sep [] rest.
Proof.
  induction l as [|x l IH]; intros acc rest H; simpl in *.
  - rewrite Ascii.eqb_refl, app_nil_r. reflexivity.
  - apply orb_false_elim in H as [Hx Hl]. rewrite Hx, (IH _ _ Hl).
    simpl. by rewrite <- app_assoc.
Qed.

Lemma split_acc_whole sep l : forall acc,
  contains sep l = false ->
  split_acc sep acc l = [string_of_list_ascii (rev acc ++ chars l)].
Proof.
  induction l as [|x l IH]; intros acc H; simpl in *.
  - by rewrite app_nil_r.
  - apply orb_false_elim in H as [Hx Hl]. rewrite Hx, (IH _ Hl).
    simpl. by rewrite <- app_assoc.
Qed.

Lemma split_piece sep l rest :
  contains sep l = false ->
  split sep (l +:+ String sep rest) = l :: split sep rest.
Proof.
  intros H. unfold split. rewrite (split_acc_piece _ _ _ _ H). simpl.
  by rewrite string_of_chars.
Qed.

Lemma split_whole sep l : contains sep l = false -> split sep l = [l].
Proof.
  intros H. unfold split. rewrite (split_acc_whole _ _ _ H). simpl.
  by rewrite string_of_chars.
Qed.

(** [split] undoes [join] on pieces free of the separator. *)
Lemma split_join sep (l : list string) :
  l <> [] ->
  Forall (fun piece => contains sep piece = false) l ->
  split sep (join (String sep "") l) = l.
Proof.
  intros Hne Hall. induction Hall as [|x l Hx Hall IH]; [contradiction|].
  destruct l as [|y l].
  - simpl. by apply split_whole.
  - change (join (String sep "") (x :: y :: l))
      with (x +:+ String sep (join (String sep "") (y :: l))).
    rewrite (split_piece _ _ _ Hx). f_equal. apply IH. discriminate.
Qed.

Lemma join_lacks c sep (l : list string) :
  contains c sep = false ->
  Forall (fun piece => contains c piece = false) l ->
  contains c (join sep l) = false.
Proof.
  intros Hsep Hall. induction Hall as [|x l Hx Hall IH]; [reflexivity|].
  destruct l as [|y l]; [exact Hx|].
  change (join sep (x :: y :: l)) with (x +:+ sep +:+ join sep (y :: l)).
  rewrite !contains_app, Hx, Hsep, IH. reflexivity.
Qed.

Lemma unlines_app l1 l2 : unlines (l1 ++ l2) = unlines l1 +:+ unlines l2.
Proof.
  induction l1 as [|x l1 IH]; simpl; [reflexivity|].
  rewrite IH, append_assoc. reflexivity.
Qed.

Lemma split_unlines (lines : list string) tail :
  Forall (fun l => contains LF l = false) lines ->
  split LF (unlines lines +:+ tail) = lines ++ split LF tail.
Proof.
  intros Hall. induction Hall as [|x l Hx Hall IH]; simpl; [reflexivity|].
  rewrite append_assoc. simpl.
  rewrite (split_piece _ _ _ Hx), IH. reflexivity.
Qed.

Lemma concat_cons x (l : list string) :
  String.concat "" (x :: l) = x +:+ String.concat "" l.
Proof.
  destruct l; simpl; [by rewrite append_nil_r | reflexivity].
Qed.

Lemma concat_app (l1 l2 : list string) :
  String.concat "" (l1 ++ l2) = String.concat "" l1 +:+ String.concat "" l2.
Proof.
  induction l1 as [|x l1 IH]; [reflexivity|].
  rewrite <- app_comm_cons, !concat_cons, IH.
  by rewrite append_assoc.
Qed.

Lemma concat_rows (data : list LogRow) :
  String.concat "" (map csv_row data) = unlines (map row_text data).
Proof.
  induction data as [|row data IH]; [reflexivity|].
  cbn [map]. rewrite concat_cons, IH. unfold csv_row, nl.
  rewrite append_assoc. reflexivity.
Qed.

(** Digits and timestamps hold no line feed. *)
Lemma digit_not_LF n : Ascii.eqb (digit n) LF = false.
Proof.
  unfold digit.
  destruct (n mod 10)%nat as [|[|[|[|[|[|[|[|[|?]]]]]]]]]; reflexivity.
Qed.

Lemma pad2_no_LF n : contains LF (pad2 n) = false.
Proof. unfold pad2. simpl. by rewrite !digit_not_LF. Qed.

Lemma pad4_no_LF n : contains LF (pad4 n) = false.
Proof. unfold pad4, pad2. simpl. by rewrite !digit_not_LF. Qed.

Lemma directive_no_LF c d :
  Ascii.eqb c LF = false -> contains LF (directive c d) = false.
Proof.
  intros Hc. unfold directive.
  repeat match goal with
         | |- context [if ?b then _ else _] => destruct b
         end;
    try apply pad2_no_LF; try apply pad4_no_LF.
  simpl. by rewrite Hc.
Qed.

Lemma strftime_no_LF_aux d fmt :
  (contains LF fmt = false -> contains LF (strftime fmt d) = false)
  /\ (forall a, contains LF (String a fmt) = false ->
                contains LF (strftime (String a fmt) d) = false).
Proof.
  induction fmt as [|c fmt [IH1 IH2]].
  - split; [reflexivity|]. intros a H. simpl in *.
    destruct (Ascii.eqb a "%"); simpl; exact H.
  - split.
    + intros H. apply IH2. exact H.
    + intros a H. cbn [contains] in H.
      apply orb_false_elim in H as [Ha H].
      cbn [strftime]. destruct (Ascii.eqb a "%").
      * cbn [contains] in H. apply orb_false_elim in H as [Hc H].
        rewrite contains_app, (directive_no_LF _ _ Hc). simpl.
        apply IH1. exact H.
      * change (contains LF (String a (strftime (String c fmt) d)) = false).
        cbn [contains]. rewrite Ha. simpl. apply IH2. exact H.
Qed.

Lemma strftime_no_LF fmt d :
  contains LF fmt = false -> contains LF (strftime fmt d) = false.
Proof. apply strftime_no_LF_aux. Qed.

Lemma stamp_no_LF d : contains LF (stamp d) = false.
Proof. unfold stamp. by apply strftime_no_LF. Qed.

Lemma uint_no_LF (u : Decimal.uint) :
  contains LF (NilEmpty.string_of_uint u) = false.
Proof. induction u; simpl; auto. Qed.

Lemma str_int_no_LF n : contains LF (str_int n) = false.
Proof.
  unfold str_int, NilZero.string_of_int, NilZero.string_of_uint.
  destruct (Z.to_int n) as [u | u]; destruct u; simpl;
    try reflexivity; apply uint_no_LF.
Qed.

Lemma header_text (rid ts n rest : string) :
  String.concat ""
    [ "# Generated By: SAVER_LOGGER" +:+ nl; "# Session ID: " +:+ rid +:+ nl;
      "# Export Time: " +:+ ts +:+ nl; "# Total Requests: " +:+ n +:+ nl +:+ nl;
      column_headers +:+ nl ] +:+ rest
  = unlines (header_lines rid ts n ++ [column_headers]) +:+ rest.
Proof.
  unfold header_lines, unlines, nl, column_headers. simpl.
  repeat (rewrite !append_assoc; simpl). reflexivity.
Qed.

Lemma header_lines_no_LF rid ts n :
  contains LF rid = false -> contains LF ts = false -> contains LF n = false ->
  Forall (fun l => contains LF l = false)
         (header_lines rid ts n ++ [column_headers]).
Proof.
  intros Hr Ht Hn. unfold header_lines.
  repeat constructor; try reflexivity; rewrite contains_app; simpl; assumption.
Qed.

Lemma after_header_lines rid ts n rest :
  after_headers ((header_lines rid ts n ++ [column_headers]) ++ rest) = rest.
Proof. unfold header_lines. simpl. reflexivity. Qed.

Lemma until_blank_rows (rows rest : list string) :
  Forall (fun r => r <> "") rows ->
  until_blank (rows ++ "" :: rest) = rows.
Proof.
  intros Hall. induction Hall as [|r rows Hr Hall IH]; [reflexivity|].
  simpl. destruct (String.eqb r "") eqn:E.
  - apply String.eqb_eq in E. contradiction.
  - by rewrite IH.
Qed.

Lemma row_text_nonempty row : row_text row <> "".
Proof.
  unfold row_text, columns. simpl.
  destruct (sanitize (str_int (serial_no row))); discriminate.
Qed.

Lemma row_text_no_LF row : contains LF (row_text row) = false.
Proof.
  unfold row_text. apply join_lacks; [reflexivity|].
  apply List.Forall_forall. intros col Hin. apply in_map_iff in Hin as (c & <- & _).
  apply sanitize_no_LF.
Qed.

Lemma split_row_text row :
  split "," (row_text row) = map sanitize (columns row).
Proof.
  unfold row_text. apply (split_join ","%char).
  - discriminate.
  - apply List.Forall_forall. intros col Hin.
    apply in_map_iff in Hin as (c & <- & _). apply sanitize_no_comma.
Qed.

(** Reading back the text of an export gives the sanitized columns of the
    rows written, when the run identifier is one line. *)
Lemma csv_body_of_writes self data t_header t_footer :
  contains LF (runtime_id self) = false ->
  csv_body (String.concat "" (csv_writes self data t_header t_footer))
  = map (fun row => map sanitize (columns row)) data.
Proof.
  intros Hrid. unfold csv_writes.
  rewrite concat_app, header_text, concat_app, concat_rows.
  assert (Hfoot : exists tail,
    String.concat ""
      [ nl +:+ "# --- FOOTER METADATA ---" +:+ nl;
        "# Burp Suite Version: " +:+ (getBurpVersion (callbacks self)).1.1 +:+ nl;
        "# Exported: " +:+ stamp t_footer +:+ nl;
        "# Runtime ID: " +:+ runtime_id self +:+ nl;
        "# Total Requests Logged: "
          +:+ str_int (Z.of_nat (length data)) +:+ nl ]
    = unlines [""] +:+ tail).
  { eexists. unfold nl, unlines. simpl. reflexivity. }
  destruct Hfoot as [tail ->].
  rewrite <- !append_assoc, <- !unlines_app.
  unfold csv_body. rewrite split_unlines.
  - rewrite <- !app_assoc, app_assoc, after_header_lines.
    change ([""] ++ split LF tail) with ("" :: split LF tail).
    rewrite until_blank_rows.
    + rewrite map_map. apply map_ext. intros row. apply split_row_text.
    + apply List.Forall_forall. intros r Hin.
      apply in_map_iff in Hin as (row & <- & _). apply row_text_nonempty.
  - pose proof (header_lines_no_LF _ _ _ Hrid (stamp_no_LF t_header)
                  (str_int_no_LF (Z.of_nat (length data)))) as Hhead.
    assert (Hrows : Forall (fun l => contains LF l = false) (map row_text data)).
    { apply List.Forall_forall. intros r Hin.
      apply in_map_iff in Hin as (row & <- & _). apply row_text_no_LF. }
    rewrite !Forall_app in *. destruct Hhead as [Hh Hc].
    repeat split; try assumption. repeat constructor.
Qed.

End Text.

(** ** C8: the rows of an export *)

(** C8: when [_write_full_csv] succeeds on an extension whose run
    identifier is the one set at load, the file at the given path reads
    back, between the column-header line and the blank line before the
    footer, as exactly one data row per row of the store, in order, and the
    comma-separated values of each are the [str] of the row's ten columns
    with every comma replaced by a semicolon and every line feed and
    carriage return by a space. *)
Theorem export_rows_round_trip
    (self : BurpExtender) (started : Py.datetime) (filepath : string)
    (t_header t_footer : Py.datetime) (io : io_outcome) (fs : disk) :
  runtime_id self = Py.strftime "%Y%m%d%H%M%S" started ->
  (_write_full_csv self filepath t_header t_footer io fs).1 = true ->
  exists content,
    (_write_full_csv self filepath t_header t_footer io fs).2 !! filepath
    = Some content
    /\ length (csv_body content) = length (log_data self)
    /\ csv_body content
       = map (fun row => map substituted (columns row)) (log_data self)
    /\ (forall col, substituted col = sanitize col).
Proof.
  intros Hrid Hok.
  assert (Hline : Py.contains LF (runtime_id self) = false)
    by (rewrite Hrid; by apply Text.strftime_no_LF).
  pose proof (Text.csv_body_of_writes self (log_data self) t_header t_footer
                Hline) as Hbody.
  unfold _write_full_csv in *.
  destruct (log_data self) as [|row rows] eqn:Hdata; [discriminate Hok|].
  destruct io; try discriminate Hok. cbn [fst snd].
  eexists. split; [apply lookup_insert_eq|].
  rewrite Hbody. split; [by rewrite length_map|]. split.
  - apply map_ext. intros r. apply map_ext. intros col.
    apply Text.sanitize_substituted.
  - intros col. symmetry. apply Text.sanitize_substituted.
Qed.

Lemma export_rows_round_trip_witness :
  exists content,
    (_write_full_csv Sample.one_row "/tmp/out.csv" (Sample.at_second 7)
       (Sample.at_second 8) io_ok ∅).2 !! "/tmp/out.csv"
    = Some content
    /\ length (csv_body content) = length (log_data Sample.one_row)
    /\ csv_body content
       = map (fun row => map substituted (columns row))
           (log_data Sample.one_row)
    /\ (forall col, substituted col = sanitize col).
Proof.
  apply (export_rows_round_trip Sample.one_row (Sample.at_second 0)
           "/tmp/out.csv" (Sample.at_second 7) (Sample.at_second 8) io_ok ∅).
  - reflexivity.
  - reflexivity.
Defined.

(** A row with a comma, a line feed and a carriage return in its host, as
    it comes back from the file. *)
Example export_with_separators_in_a_field :
  let m := {| getUrl := "https://a/x?q=1,2"; getMethod := "GET";
              getParameters := Some ["q"];
              getHost := "a" +:+ String CR (String LF "b");
              getResponse := Analyzed 200 |} in
  let self := _handle_response Sample.loaded (Sample.at_second 2) 4 m in
  from_option csv_body []
    ((_write_full_csv self "/tmp/out.csv" (Sample.at_second 7)
        (Sample.at_second 8) io_ok ∅).2 !! "/tmp/out.csv")
  = [ [ "1"; "a  b"; "GET"; "https://a/x?q=1;2"; "200"; "Proxy"; "1"; "0";
        "2024-03-09 14:05:02"; "2024-03-09 14:05:02" ] ].
Proof. vm_compute. reflexivity. Qed.

(** * Further properties of the code *)

(** ** The worker and the queue *)

Lemma process_set_queue q self now w :
  _process_request_data (set_processing_queue q self) now w
  = set_processing_queue q (_process_request_data self now w).
Proof.
  unfold _process_request_data. destruct (is_request w); [reflexivity|].
  unfold _handle_response, response_take_id, response_take_tracking. simpl.
  destruct (request_tracking self !! (request_counter self + 1)); reflexivity.
Qed.

Lemma process_in_order_set_queue q items : forall clock self,
  process_in_order clock items (set_processing_queue q self)
  = set_processing_queue q (process_in_order clock items self).
Proof.
  induction items as [|w items IH]; intros clock self; simpl; [reflexivity|].
  by rewrite process_set_queue, IH.
Qed.

Lemma process_in_order_shutdown_flag items : forall clock self,
  shutdown_flag (process_in_order clock items self) = shutdown_flag self.
Proof.
  induction items as [|w items IH]; intros clock self; simpl; [reflexivity|].
  by rewrite IH, process_shutdown_flag.
Qed.

Lemma observe_all_queue items : forall self,
  observe_all self items
  = set_processing_queue (processing_queue self ++ items) self.
Proof.
  induction items as [|w items IH]; intros self; simpl.
  - rewrite app_nil_r. by destruct self.
  - unfold observe_all in *. simpl. rewrite IH. unfold processHttpMessage.
    simpl. rewrite <- app_assoc. by destruct w.
Qed.

Lemma Worker_run_idle fuel : forall clock self,
  processing_queue self = [] -> Worker_run fuel clock self = self.
Proof.
  induction fuel as [|fuel IH]; intros clock self Hq; simpl; [reflexivity|].
  destruct (shutdown_flag self); [reflexivity|].
  unfold Worker_iteration. rewrite Hq. by apply IH.
Qed.

Lemma Worker_run_in_order fuel : forall clock self,
  shutdown_flag self = false ->
  (length (processing_queue self) <= fuel)%nat ->
  Worker_run fuel clock self
  = set_processing_queue []
      (process_in_order clock (processing_queue self) self).
Proof.
  induction fuel as [|fuel IH]; intros clock self Hs Hq.
  - destruct self as [? ? ? ? ? ? ? ? ? q ?]. simpl in *.
    destruct q; [reflexivity | simpl in Hq; lia].
  - simpl. rewrite Hs. unfold Worker_iteration.
    destruct (processing_queue self) as [|w rest] eqn:E.
    + rewrite Worker_run_idle by exact E. simpl.
      destruct self; simpl in *; by subst.
    + rewrite IH.
      * rewrite process_queue. simpl.
        rewrite process_set_queue, process_in_order_set_queue. reflexivity.
      * by rewrite process_shutdown_flag.
      * rewrite process_queue. simpl in *. lia.
Qed.

(** X1: the queue is first in, first out.  The messages observed are
    appended behind what is queued, and a running worker given enough
    turns handles the whole queue in that order, one clock reading per
    item, and leaves the queue empty. *)
Theorem worker_handles_queue_in_arrival_order
    (self : BurpExtender) (items : list WorkItem) (fuel : nat)
    (clock : nat -> Py.datetime) :
  shutdown_flag self = false ->
  (length (processing_queue self) + length items <= fuel)%nat ->
  Worker_run fuel clock (observe_all self items)
  = set_processing_queue []
      (process_in_order clock (processing_queue self ++ items) self).
Proof.
  intros Hs Hfuel. rewrite observe_all_queue.
  rewrite Worker_run_in_order.
  - simpl. by rewrite process_in_order_set_queue.
  - exact Hs.
  - simpl. rewrite length_app. exact Hfuel.
Qed.

Lemma worker_handles_queue_in_arrival_order_witness :
  Worker_run 5 Sample.clock (observe_all Sample.loaded SampleX.items)
  = set_processing_queue []
      (process_in_order Sample.clock
         (processing_queue Sample.loaded ++ SampleX.items) Sample.loaded).
Proof.
  apply (worker_handles_queue_in_arrival_order Sample.loaded SampleX.items 5
           Sample.clock).
  - reflexivity.
  - simpl. lia.
Defined.

(** X2: once [extensionUnloaded] has run, the worker loop does nothing more:
    whatever is still queued stays queued and never reaches the store.
    The unload itself changes no attribute but the shutdown flag. *)
Theorem unloaded_worker_leaves_queue
    (self : BurpExtender) (now t_header t_footer : Py.datetime)
    (io : io_outcome) (fs : disk) (fuel : nat) (clock : nat -> Py.datetime) :
  let self' := (extensionUnloaded self now t_header t_footer io fs).1 in
  self' = set_shutdown_flag true self
  /\ Worker_run fuel clock self' = self'
  /\ processing_queue (Worker_run fuel clock self') = processing_queue self
  /\ log_data (Worker_run fuel clock self') = log_data self.
Proof.
  cbv zeta.
  assert (H1 : (extensionUnloaded self now t_header t_footer io fs).1
               = set_shutdown_flag true self).
  { unfold extensionUnloaded.
    destruct (negb _); reflexivity. }
  rewrite H1.
  assert (H2 : Worker_run fuel clock (set_shutdown_flag true self)
               = set_shutdown_flag true self) by (destruct fuel; reflexivity).
  rewrite H2. repeat split.
Qed.

(** ** Correlation of a response with requests *)

Lemma handle_requests_tracking_overwritten reqs : forall self v,
  <[request_counter self + 1 := v]> (request_tracking (handle_requests self reqs))
  = <[request_counter self + 1 := v]> (request_tracking self).
Proof.
  induction reqs as [|r reqs IH]; intros self v; [reflexivity|].
  change (handle_requests self (r :: reqs))
    with (handle_requests (_handle_request self r.1.1 r.1.2 r.2) reqs).
  pose proof (IH (_handle_request self r.1.1 r.1.2 r.2) v) as H.
  rewrite handle_request_counter in H. rewrite H.
  rewrite handle_request_tracking. unfold req_id. apply insert_insert_eq.
Qed.

(** X3: a response is matched with the request processed last before it.
    After any requests and then one more, the next response's row has the
    start time and the parameter count of that last request, whatever the
    URLs; the earlier requests leave no trace, and the table is what it
    was before them minus the key of the new serial number. *)
Theorem response_takes_latest_request
    (self : BurpExtender)
    (earlier : list (Py.datetime * Z * IHttpRequestResponse))
    (t_req t_resp : Py.datetime) (tf_req tf_resp : Z)
    (m_req m_resp : IHttpRequestResponse) :
  let self1 := _handle_request (handle_requests self earlier) t_req tf_req m_req in
  let self2 := _handle_response self1 t_resp tf_resp m_resp in
  exists row,
    log_data self2 = log_data self ++ [row]
    /\ serial_no row = request_counter self + 1
    /\ url row = getUrl m_resp
    /\ start_time row = stamp t_req
    /\ end_time row = stamp t_resp
    /\ insertion_point_count row = _count_insertion_points m_req
    /\ request_tracking self2
       = delete (request_counter self + 1) (request_tracking self).
Proof.
  cbv zeta.
  destruct (handle_requests_counter earlier self) as [Hc Hl].
  set (self1 := _handle_request (handle_requests self earlier) t_req tf_req m_req).
  assert (Hc1 : request_counter self1 = request_counter self) by exact Hc.
  assert (Hl1 : log_data self1 = log_data self) by exact Hl.
  assert (Ht1 : request_tracking self1
                = <[request_counter self + 1 := pending_of t_req m_req]>
                    (request_tracking self)).
  { unfold self1. rewrite handle_request_tracking. unfold req_id. rewrite Hc.
    apply handle_requests_tracking_overwritten. }
  exists (finalized_row self1 t_resp tf_resp m_resp).
  rewrite handle_response_log, handle_response_tracking, Hl1, Hc1, Ht1.
  unfold finalized_row. cbn [serial_no url start_time end_time
                             insertion_point_count].
  rewrite Hc1, Ht1, lookup_insert_eq. simpl.
  repeat split. apply delete_insert_eq.
Qed.

(** ** What every reachable state keeps *)














(** X7: only the worker and a confirmed clear touch the store.  A run made
    of observed messages, timer ticks, manual backups, exports and declined
    clears leaves the rows, the counter and the table exactly as they
    were. *)
Theorem store_changes_only_by_worker_and_clear
    (self : BurpExtender) (fs : disk) (acts : list action) :
  forallb (fun a => negb (is_worker_turn a) && negb (clears a)) acts = true ->
  let self' := (run (self, fs) acts).1 in
  log_data self' = log_data self
  /\ request_counter self' = request_counter self
  /\ request_tracking self' = request_tracking self.
Proof.
  cbv zeta. induction acts as [|a acts IH] using rev_ind; intros Hall.
  - repeat split.
  - rewrite forallb_app in Hall. apply andb_prop in Hall as [Hall Ha].
    simpl in Ha. rewrite andb_true_r in Ha. apply andb_prop in Ha as [Hw Hc].
    specialize (IH Hall). rewrite run_snoc.
    destruct (run (self, fs) acts) as [s f]. simpl in IH.
    destruct a; simpl in *; try discriminate; try exact IH.
    + destruct (Task_run_self s millis t_header t_footer io f) as [-> | ->];
        exact IH.
    + destruct confirm; [discriminate | exact IH].
Qed.

Lemma store_changes_only_by_worker_and_clear_witness :
  let self' := (run (Sample.one_row, ∅) SampleX.quiet).1 in
  log_data self' = log_data Sample.one_row
  /\ request_counter self' = request_counter Sample.one_row
  /\ request_tracking self' = request_tracking Sample.one_row.
Proof.
  apply (store_changes_only_by_worker_and_clear Sample.one_row ∅ SampleX.quiet).
  reflexivity.
Defined.

(** ** The exported text *)

Module TextX.

Import Py Text.

#[local] Arguments Strings.String.append : simpl nomatch.

Lemma footer_text (version ts rid n : string) :
  String.concat ""
    [ nl +:+ "# --- FOOTER METADATA ---" +:+ nl;
      "# Burp Suite Version: " +:+ version +:+ nl;
      "# Exported: " +:+ ts +:+ nl;
      "# Runtime ID: " +:+ rid +:+ nl;
      "# Total Requests Logged: " +:+ n +:+ nl ]
  = unlines (footer_lines version ts rid n).
Proof.
  unfold footer_lines, unlines, nl. simpl.
  repeat (rewrite !append_assoc; simpl). reflexivity.
Qed.

(** All the lines of an export. *)
Lemma lines_of_writes self data t_header t_footer :
  contains LF (runtime_id self) = false ->
  contains LF (getBurpVersion (callbacks self)).1.1 = false ->
  split LF (String.concat "" (csv_writes self data t_header t_footer))
  = header_lines (runtime_id self) (stamp t_header)
      (str_int (Z.of_nat (length data)))
    ++ [column_headers] ++ map row_text data
    ++ footer_lines (getBurpVersion (callbacks self)).1.1 (stamp t_footer)
         (runtime_id self) (str_int (Z.of_nat (length data)))
    ++ [""].
Proof.
  intros Hrid Hver. unfold csv_writes.
  rewrite concat_app, header_text, concat_app, concat_rows, footer_text.
  rewrite <- !unlines_app.
  rewrite <- (append_nil_r (unlines _)).
  rewrite split_unlines.
  - rewrite <- !app_assoc. reflexivity.
  - pose proof (header_lines_no_LF _ _ _ Hrid (stamp_no_LF t_header)
                  (str_int_no_LF (Z.of_nat (length data)))) as Hhead.
    assert (Hrows : Forall (fun l => contains LF l = false) (map row_text data)).
    { apply List.Forall_forall. intros r Hin.
      apply in_map_iff in Hin as (row & <- & _). apply row_text_no_LF. }
    rewrite !Forall_app in *. destruct Hhead as [Hh Hc].
    repeat split; try assumption. unfold footer_lines.
    repeat constructor; try reflexivity; rewrite contains_app; simpl;
      first [ assumption | apply stamp_no_LF | apply str_int_no_LF ].
Qed.

Lemma replace_absent old new s :
  contains old s = false -> replace old new s = s.
Proof.
  induction s as [|x s IH]; simpl; [reflexivity|].
  intros H. apply orb_false_elim in H as [Hx Hs]. by rewrite Hx, IH.
Qed.

Lemma replace_length old new s :
  String.length (replace old new s) = String.length s.
Proof. induction s as [|x s IH]; simpl; [reflexivity | by rewrite IH]. Qed.

Lemma clean_spec s :
  clean s = true <->
  contains "," s = false /\ contains LF s = false /\ contains CR s = false.
Proof.
  unfold clean. rewrite negb_true_iff, !orb_false_iff. tauto.
Qed.

Lemma sanitize_clean s : clean s = true -> sanitize s = s.
Proof.
  intros H. apply clean_spec in H as (Hc & Hl & Hr). unfold sanitize.
  by rewrite (replace_absent _ _ _ Hc), (replace_absent _ _ _ Hl),
    (replace_absent _ _ _ Hr).
Qed.

Lemma clean_sanitize s : clean (sanitize s) = true.
Proof.
  apply clean_spec.
  by rewrite sanitize_no_comma, sanitize_no_LF, sanitize_no_CR.
Qed.

Lemma uint_clean (u : Decimal.uint) : clean (NilEmpty.string_of_uint u) = true.
Proof.
  apply clean_spec.
  induction u; simpl; repeat split; try reflexivity; apply IHu.
Qed.

Lemma str_int_clean n : clean (str_int n) = true.
Proof.
  unfold str_int, NilZero.string_of_int, NilZero.string_of_uint.
  destruct (Z.to_int n) as [u | u].
  - destruct u; try reflexivity; apply uint_clean.
  - pose proof (uint_clean u) as Hu.
    destruct u; try reflexivity; apply clean_spec in Hu as (H1 & H2 & H3);
      apply clean_spec; simpl in *; repeat split; assumption.
Qed.

Lemma length_append (a b : string) :
  String.length (a +:+ b) = (String.length a + String.length b)%nat.
Proof. induction a as [|x a IH]; simpl; [reflexivity | by rewrite IH]. Qed.

Lemma substring_whole s : String.substring 0 (String.length s) s = s.
Proof. induction s as [|x s IH]; simpl; [reflexivity | by rewrite IH]. Qed.

Lemma substring_skip a b :
  String.substring (String.length a) (String.length b) (a +:+ b) = b.
Proof.
  induction a as [|x a IH]; simpl; [apply substring_whole | exact IH].
Qed.

Lemma endswith_str_append a suffix : endswith_str suffix (a +:+ suffix) = true.
Proof.
  unfold endswith_str. rewrite length_append.
  replace (String.length a + String.length suffix - String.length suffix)%nat
    with (String.length a) by lia.
  rewrite substring_skip, String.eqb_refl, andb_true_r.
  apply Nat.leb_le. lia.
Qed.

(** [os.path.join] keeps relative file names apart. *)
Lemma path_join_inj a b1 b2 :
  startswith "/" b1 = false -> startswith "/" b2 = false ->
  path_join a b1 = path_join a b2 -> b1 = b2.
Proof.
  intros H1 H2. unfold path_join. rewrite H1, H2.
  destruct (String.eqb a "" || endswith "/" a); intros H.
  - by apply String.app_inj in H.
  - apply String.app_inj in H. by apply (String.app_inj "/") in H.
Qed.

End TextX.

Lemma write_frame self filepath t_header t_footer io (fs : disk) p :
  p <> filepath ->
  (_write_full_csv self filepath t_header t_footer io fs).2 !! p = fs !! p.
Proof.
  intros Hp. unfold _write_full_csv.
  destruct (log_data self); [reflexivity|].
  destruct io; simpl; try reflexivity; by rewrite lookup_insert_ne.
Qed.

Lemma write_ok self filepath t_header t_footer (fs : disk) :
  log_data self <> [] ->
  _write_full_csv self filepath t_header t_footer io_ok fs
  = (true,
     <[filepath := String.concat ""
                     (csv_writes self (log_data self) t_header t_footer)]> fs).
Proof.
  intros Hne. unfold _write_full_csv.
  destruct (log_data self); [contradiction | reflexivity].
Qed.

(** X8: the layout of an exported file.  When the run identifier is the
    one set at load and the product name is one line, a successful
    [_write_full_csv] leaves at the path a text whose lines are, in order:
    the four comment lines with session, export time and row count, a blank
    line, the column headers, one line per stored row, a blank line, the
    five footer lines with the same row count, and the end of the last
    line. *)
Theorem exported_file_layout
    (self : BurpExtender) (started : Py.datetime) (filepath : string)
    (t_header t_footer : Py.datetime) (io : io_outcome) (fs : disk) :
  runtime_id self = Py.strftime "%Y%m%d%H%M%S" started ->
  Py.contains LF (getBurpVersion (callbacks self)).1.1 = false ->
  (_write_full_csv self filepath t_header t_footer io fs).1 = true ->
  let n := Py.str_int (Z.of_nat (length (log_data self))) in
  exists content,
    (_write_full_csv self filepath t_header t_footer io fs).2 !! filepath
    = Some content
    /\ Py.split LF content
       = [ "# Generated By: SAVER_LOGGER";
           "# Session ID: " +:+ runtime_id self;
           "# Export Time: " +:+ stamp t_header;
           "# Total Requests: " +:+ n;
           "";
           column_headers ]
         ++ map row_text (log_data self)
         ++ [ "";
              "# --- FOOTER METADATA ---";
              "# Burp Suite Version: " +:+ (getBurpVersion (callbacks self)).1.1;
              "# Exported: " +:+ stamp t_footer;
              "# Runtime ID: " +:+ runtime_id self;
              "# Total Requests Logged: " +:+ n;
              "" ].
Proof.
  intros Hrid Hver Hok.
  assert (Hline : Py.contains LF (runtime_id self) = false)
    by (rewrite Hrid; by apply Text.strftime_no_LF).
  pose proof (TextX.lines_of_writes self (log_data self) t_header t_footer
                Hline Hver) as Hlines.
  unfold _write_full_csv in *.
  destruct (log_data self) as [|row rows] eqn:Hdata; [discriminate Hok|].
  destruct io; try discriminate Hok. cbn [fst snd].
  eexists. split; [apply lookup_insert_eq|].
  rewrite Hlines. reflexivity.
Qed.

Lemma exported_file_layout_witness :
  let self := Sample.one_row in
  let n := Py.str_int (Z.of_nat (length (log_data self))) in
  exists content,
    (_write_full_csv self "/tmp/out.csv" (Sample.at_second 7)
       (Sample.at_second 8) io_ok ∅).2 !! "/tmp/out.csv"
    = Some content
    /\ Py.split LF content
       = [ "# Generated By: SAVER_LOGGER";
           "# Session ID: " +:+ runtime_id self;
           "# Export Time: " +:+ stamp (Sample.at_second 7);
           "# Total Requests: " +:+ n;
           "";
           column_headers ]
         ++ map row_text (log_data self)
         ++ [ "";
              "# --- FOOTER METADATA ---";
              "# Burp Suite Version: " +:+ (getBurpVersion (callbacks self)).1.1;
              "# Exported: " +:+ stamp (Sample.at_second 8);
              "# Runtime ID: " +:+ runtime_id self;
              "# Total Requests Logged: " +:+ n;
              "" ].
Proof.
  apply (exported_file_layout Sample.one_row (Sample.at_second 0) "/tmp/out.csv"
           (Sample.at_second 7) (Sample.at_second 8) io_ok ∅);
    reflexivity.
Defined.

(** X9: rows whose text columns hold no comma, line feed or carriage
    return come back from an export exactly as stored: the data rows read
    back are the [str] of the ten columns, unchanged. *)
Theorem clean_rows_export_unchanged
    (self : BurpExtender) (started : Py.datetime) (filepath : string)
    (t_header t_footer : Py.datetime) (io : io_outcome) (fs : disk) :
  runtime_id self = Py.strftime "%Y%m%d%H%M%S" started ->
  Forall (fun row => Forall (fun col => clean col = true) (text_columns row))
         (log_data self) ->
  (_write_full_csv self filepath t_header t_footer io fs).1 = true ->
  exists content,
    (_write_full_csv self filepath t_header t_footer io fs).2 !! filepath
    = Some content
    /\ csv_body content = map columns (log_data self).
Proof.
  intros Hrid Hclean Hok.
  assert (Hline : Py.contains LF (runtime_id self) = false)
    by (rewrite Hrid; by apply Text.strftime_no_LF).
  pose proof (Text.csv_body_of_writes self (log_data self) t_header t_footer
                Hline) as Hbody.
  unfold _write_full_csv in *.
  destruct (log_data self) as [|row rows] eqn:Hdata; [discriminate Hok|].
  destruct io; try discriminate Hok. cbn [fst snd].
  eexists. split; [apply lookup_insert_eq|].
  rewrite Hbody. apply List.map_ext_Forall.
  eapply Forall_impl; [exact Hclean|]. intros r Hr. simpl in Hr.
  unfold text_columns in Hr.
  repeat match goal with
         | H : Forall _ (_ :: _) |- _ => apply Forall_cons in H as [? H]
         end.
  unfold columns. simpl.
  rewrite !TextX.sanitize_clean by (assumption || apply TextX.str_int_clean).
  reflexivity.
Qed.

Lemma clean_rows_export_unchanged_witness :
  exists content,
    (_write_full_csv Sample.one_row "/tmp/out.csv" (Sample.at_second 7)
       (Sample.at_second 8) io_ok ∅).2 !! "/tmp/out.csv"
    = Some content
    /\ csv_body content = map columns (log_data Sample.one_row).
Proof.
  apply (clean_rows_export_unchanged Sample.one_row (Sample.at_second 0)
           "/tmp/out.csv" (Sample.at_second 7) (Sample.at_second 8) io_ok ∅).
  - reflexivity.
  - repeat constructor.
  - reflexivity.
Defined.

(** X10: every data row of an export has exactly ten fields, and no field
    holds a comma, a line feed or a carriage return, whatever text the
    stored rows hold. *)
Theorem exported_rows_have_ten_clean_fields
    (self : BurpExtender) (started : Py.datetime) (filepath : string)
    (t_header t_footer : Py.datetime) (io : io_outcome) (fs : disk) :
  runtime_id self = Py.strftime "%Y%m%d%H%M%S" started ->
  (_write_full_csv self filepath t_header t_footer io fs).1 = true ->
  exists content,
    (_write_full_csv self filepath t_header t_footer io fs).2 !! filepath
    = Some content
    /\ Forall (fun fields => length fields = 10%nat
                             /\ Forall (fun col => clean col = true) fields)
              (csv_body content).
Proof.
  intros Hrid Hok.
  assert (Hline : Py.contains LF (runtime_id self) = false)
    by (rewrite Hrid; by apply Text.strftime_no_LF).
  pose proof (Text.csv_body_of_writes self (log_data self) t_header t_footer
                Hline) as Hbody.
  unfold _write_full_csv in *.
  destruct (log_data self) as [|row rows] eqn:Hdata; [discriminate Hok|].
  destruct io; try discriminate Hok. cbn [fst snd].
  eexists. split; [apply lookup_insert_eq|].
  rewrite Hbody. apply List.Forall_forall. intros fields Hin.
  apply in_map_iff in Hin as (r & <- & _). split; [reflexivity|].
  unfold columns. simpl. repeat constructor; apply TextX.clean_sanitize.
Qed.

Lemma exported_rows_have_ten_clean_fields_witness :
  exists content,
    (_write_full_csv
       (_handle_response Sample.loaded (Sample.at_second 2) 32 SampleX.busy)
       "/tmp/out.csv" (Sample.at_second 7) (Sample.at_second 8) io_ok ∅).2
    !! "/tmp/out.csv"
    = Some content
    /\ Forall (fun fields => length fields = 10%nat
                             /\ Forall (fun col => clean col = true) fields)
              (csv_body content).
Proof.
  apply (exported_rows_have_ten_clean_fields
           (_handle_response Sample.loaded (Sample.at_second 2) 32 SampleX.busy)
           (Sample.at_second 0) "/tmp/out.csv" (Sample.at_second 7)
           (Sample.at_second 8) io_ok ∅);
    reflexivity.
Defined.

(** X11: the sanitizing of a column changes the three characters and
    nothing else: the result has the length of the column and holds no
    comma, line feed or carriage return, sanitizing it again changes
    nothing, and a column without those characters is left as it is. *)
Theorem sanitize_replaces_in_place (col : string) :
  String.length (sanitize col) = String.length col
  /\ clean (sanitize col) = true
  /\ sanitize (sanitize col) = sanitize col
  /\ (clean col = true -> sanitize col = col).
Proof.
  split; [|split; [|split]].
  - unfold sanitize. by rewrite !TextX.replace_length.
  - apply TextX.clean_sanitize.
  - apply TextX.sanitize_clean, TextX.clean_sanitize.
  - apply TextX.sanitize_clean.
Qed.

(** ** Backups and the timer *)

Lemma auto_backup_frame self t_header t_footer io (fs : disk) p :
  p <> autosave_file self ->
  _auto_backup self t_header t_footer io fs !! p = fs !! p.
Proof.
  intros Hp. unfold _auto_backup.
  destruct (negb (negb _)); [reflexivity|].
  by apply write_frame.
Qed.

Lemma Task_run_frame self millis t_header t_footer io (fs : disk) p :
  p <> autosave_file self ->
  (Task_run self millis t_header t_footer io fs).2 !! p = fs !! p.
Proof.
  intros Hp. unfold Task_run. destruct (Task_due self millis); [|reflexivity].
  by apply auto_backup_frame.
Qed.

(** X12: automatic backups use one file.  Whatever the number of timer
    ticks and however their writes end, every path other than the autosave
    file of the backup folder holds after the ticks what it held before,
    and the rows and the folder setting are untouched. *)
Theorem ticks_write_only_autosave_file
    (self : BurpExtender) (fs : disk) (acts : list action) (p : string) :
  forallb is_tick acts = true ->
  p <> autosave_file self ->
  (run (self, fs) acts).2 !! p = fs !! p
  /\ log_data (run (self, fs) acts).1 = log_data self
  /\ backup_folder (run (self, fs) acts).1 = backup_folder self.
Proof.
  intros Hall Hp. induction acts as [|a acts IH] using rev_ind.
  - repeat split.
  - rewrite forallb_app in Hall. apply andb_prop in Hall as [Hall Ha].
    simpl in Ha. rewrite andb_true_r in Ha.
    destruct (IH Hall) as (Hfs & Hlog & Hfolder). rewrite run_snoc.
    destruct (run (self, fs) acts) as [s f]. simpl in *.
    destruct a; try discriminate. simpl.
    assert (Hp' : p <> autosave_file s)
      by (unfold autosave_file in *; by rewrite Hfolder).
    rewrite (Task_run_frame _ _ _ _ _ _ _ Hp'), Hfs.
    destruct (Task_run_self s millis t_header t_footer io f) as [-> | ->];
      repeat split; assumption.
Qed.

Lemma ticks_write_only_autosave_file_witness :
  (run (Sample.one_row, ∅) SampleX.ticks).2 !! Sample.backup_path
  = (∅ : disk) !! Sample.backup_path
  /\ log_data (run (Sample.one_row, ∅) SampleX.ticks).1 = log_data Sample.one_row
  /\ backup_folder (run (Sample.one_row, ∅) SampleX.ticks).1
     = backup_folder Sample.one_row.
Proof.
  apply (ticks_write_only_autosave_file Sample.one_row ∅ SampleX.ticks
           Sample.backup_path).
  - reflexivity.
  - vm_compute. discriminate.
Defined.

(** X13: a due tick restarts the waiting time even when it saves nothing.
    When the tick is due but the store is empty, or the file cannot be
    opened, the file system is unchanged and [last_backup_time] is still
    set to the clock of the tick, so a second tick less than the interval
    later, in whole seconds, changes nothing, whatever rows have arrived
    meanwhile. *)
Theorem due_tick_without_save_restarts_wait
    (self : BurpExtender) (millis1 millis2 : Z)
    (t1 t2 t3 t4 : Py.datetime) (io1 io2 : io_outcome) (fs : disk)
    (rows : list LogRow) :
  Task_due self millis1 = true ->
  log_data self = [] \/ io1 = io_open_fails ->
  millis2 / 1000 - millis1 / 1000 < backup_interval_seconds self ->
  let first := Task_run self millis1 t1 t2 io1 fs in
  first = (set_last_backup_time (millis1 / 1000) self, fs)
  /\ Task_run (set_log_data (log_data first.1 ++ rows) first.1) millis2 t3 t4
       io2 first.2
     = (set_log_data (log_data first.1 ++ rows) first.1, fs).
Proof.
  intros Hdue Hnothing Hclose. cbv zeta.
  assert (H1 : Task_run self millis1 t1 t2 io1 fs
               = (set_last_backup_time (millis1 / 1000) self, fs)).
  { unfold Task_run. rewrite Hdue. f_equal. unfold _auto_backup, _write_full_csv.
    destruct Hnothing as [Hempty | ->].
    - rewrite Hempty. reflexivity.
    - destruct (log_data self); reflexivity. }
  rewrite H1. split; [reflexivity|].
  unfold Task_run, Task_due. simpl.
  replace (backup_interval_seconds self <=? millis2 / 1000 - millis1 / 1000)%Z
    with false by (symmetry; apply Z.leb_gt; exact Hclose).
  rewrite andb_false_r. reflexivity.
Qed.

Lemma due_tick_without_save_restarts_wait_witness :
  let first := Task_run Sample.loaded 1709993104000 (Sample.at_second 4)
                 (Sample.at_second 4) io_ok ∅ in
  first = (set_last_backup_time (1709993104000 / 1000) Sample.loaded, ∅)
  /\ Task_run (set_log_data (log_data first.1 ++ log_data Sample.one_row) first.1)
       1709993163999 (Sample.at_second 5) (Sample.at_second 5) io_ok first.2
     = (set_log_data (log_data first.1 ++ log_data Sample.one_row) first.1, ∅).
Proof.
  apply (due_tick_without_save_restarts_wait Sample.loaded 1709993104000
           1709993163999 (Sample.at_second 4) (Sample.at_second 4)
           (Sample.at_second 5) (Sample.at_second 5) io_ok io_ok ∅
           (log_data Sample.one_row)).
  - reflexivity.
  - left. reflexivity.
  - vm_compute. reflexivity.
Defined.

(** X14: a manual export always writes a [.csv] file.  On a store with
    rows and working I/O, the export writes the whole text to the chosen
    path, with [.csv] appended when the path does not end in it, reports
    the number of rows and that path, and changes no other file. *)
Theorem manual_export_appends_csv_extension
    (self : BurpExtender) (path : string) (t_header t_footer : Py.datetime)
    (fs : disk) :
  log_data self <> [] ->
  let target := if Py.endswith_str ".csv" path then path else path +:+ ".csv" in
  let result := export_csv_manual self (Some path) t_header t_footer io_ok fs in
  Py.endswith_str ".csv" target = true
  /\ result.1
     = Some ("Export successful!" +:+ nl
               +:+ Py.str_int (Z.of_nat (length (log_data self)))
               +:+ " requests saved to:" +:+ nl +:+ target)
  /\ result.2 !! target
     = Some (String.concat ""
               (csv_writes self (log_data self) t_header t_footer))
  /\ (forall p, p <> target -> result.2 !! p = fs !! p).
Proof.
  intros Hne. cbv zeta.
  assert (Hend : Py.endswith_str ".csv"
                   (if Py.endswith_str ".csv" path then path else path +:+ ".csv")
                 = true).
  { destruct (Py.endswith_str ".csv" path) eqn:E; [exact E|].
    apply TextX.endswith_str_append. }
  split; [exact Hend|].
  unfold export_csv_manual.
  replace (negb (negb (length (log_data self) =? 0)%nat)) with false
    by (destruct (log_data self); [contradiction | reflexivity]).
  rewrite write_ok by exact Hne. cbn [fst snd].
  split; [reflexivity|]. split; [apply lookup_insert_eq|].
  intros p Hp. by rewrite lookup_insert_ne.
Qed.

Lemma manual_export_appends_csv_extension_witness :
  let target := if Py.endswith_str ".csv" "/tmp/e" then "/tmp/e"
                else "/tmp/e" +:+ ".csv" in
  let result := export_csv_manual Sample.one_row (Some "/tmp/e")
                  (Sample.at_second 6) (Sample.at_second 6) io_ok ∅ in
  Py.endswith_str ".csv" target = true
  /\ result.1
     = Some ("Export successful!" +:+ nl
               +:+ Py.str_int (Z.of_nat (length (log_data Sample.one_row)))
               +:+ " requests saved to:" +:+ nl +:+ target)
  /\ result.2 !! target
     = Some (String.concat ""
               (csv_writes Sample.one_row (log_data Sample.one_row)
                  (Sample.at_second 6) (Sample.at_second 6)))
  /\ (forall p, p <> target -> result.2 !! p = (∅ : disk) !! p).
Proof.
  apply (manual_export_appends_csv_extension Sample.one_row "/tmp/e"
           (Sample.at_second 6) (Sample.at_second 6) ∅).
  discriminate.
Defined.



(** X16: a manual backup of a store with rows, with working I/O, writes the
    whole text to a file of the backup folder named after the clock,
    reports the number of rows and that path, and leaves every other file,
    the autosave file included, as it was; read back, the file gives one
    row per stored row. *)
Theorem manual_backup_writes_time_stamped_file
    (self : BurpExtender) (started now t_header t_footer : Py.datetime)
    (fs : disk) :
  runtime_id self = Py.strftime "%Y%m%d%H%M%S" started ->
  log_data self <> [] ->
  let target :=
    Py.path_join (backup_folder self)
      ("SAVER_LOGGER_BACKUP_" +:+ Py.strftime "%d%m%Y_%H%M%S" now +:+ ".csv") in
  let result := backup_now self now t_header t_footer io_ok fs in
  result.1
  = "Backup completed successfully!" +:+ nl
      +:+ Py.str_int (Z.of_nat (length (log_data self)))
      +:+ " requests saved to:" +:+ nl +:+ target
  /\ (exists content,
        result.2 !! target = Some content
        /\ csv_body content
           = map (fun row => map sanitize (columns row)) (log_data self))
  /\ target <> autosave_file self
  /\ (forall p, p <> target -> result.2 !! p = fs !! p).
Proof.
  intros Hrid Hne. cbv zeta.
  assert (Hline : Py.contains LF (runtime_id self) = false)
    by (rewrite Hrid; by apply Text.strftime_no_LF).
  unfold backup_now. rewrite write_ok by exact Hne. cbn [fst snd].
  split; [reflexivity|]. split; [|split].
  - eexists. split; [apply lookup_insert_eq|].
    by apply Text.csv_body_of_writes.
  - unfold autosave_file. intros Heq.
    apply TextX.path_join_inj in Heq; [discriminate Heq | reflexivity..].
  - intros p Hp. by rewrite lookup_insert_ne.
Qed.

Lemma manual_backup_writes_time_stamped_file_witness :
  let self := Sample.one_row in
  let result := backup_now self (Sample.at_second 3) (Sample.at_second 3)
                  (Sample.at_second 3) io_ok ∅ in
  let target :=
    Py.path_join (backup_folder self)
      ("SAVER_LOGGER_BACKUP_"
         +:+ Py.strftime "%d%m%Y_%H%M%S" (Sample.at_second 3) +:+ ".csv") in
  result.1
  = "Backup completed successfully!" +:+ nl
      +:+ Py.str_int (Z.of_nat (length (log_data self)))
      +:+ " requests saved to:" +:+ nl +:+ target
  /\ (exists content,
        result.2 !! target = Some content
        /\ csv_body content
           = map (fun row => map sanitize (columns row)) (log_data self))
  /\ target <> autosave_file self
  /\ (forall p, p <> target -> result.2 !! p = (∅ : disk) !! p).
Proof.
  apply (manual_backup_writes_time_stamped_file Sample.one_row
           (Sample.at_second 0) (Sample.at_second 3) (Sample.at_second 3)
           (Sample.at_second 3) ∅).
  - reflexivity.
  - discriminate.
Defined.

(** X17: the backup at unload has its own file.  With rows in the store
    and working I/O, [extensionUnloaded] writes the whole text to a file of
    the backup folder named after the clock, which is never the autosave
    file of the timer, and changes no other file; the rows are kept. *)
Theorem unload_backup_keeps_autosave_file
    (self : BurpExtender) (now t_header t_footer : Py.datetime) (fs : disk) :
  log_data self <> [] ->
  let target :=
    Py.path_join (backup_folder self)
      ("SAVER_LOGGER_AUTOSAVE_" +:+ Py.strftime "%d%m%Y_%H%M%S" now +:+ ".csv") in
  let result := extensionUnloaded self now t_header t_footer io_ok fs in
  result.2 !! target
  = Some (String.concat "" (csv_writes self (log_data self) t_header t_footer))
  /\ target <> autosave_file self
  /\ result.2 !! autosave_file self = fs !! autosave_file self
  /\ (forall p, p <> target -> result.2 !! p = fs !! p)
  /\ log_data result.1 = log_data self.
Proof.
  intros Hne. cbv zeta.
  assert (Hdiff :
    Py.path_join (backup_folder self)
      ("SAVER_LOGGER_AUTOSAVE_" +:+ Py.strftime "%d%m%Y_%H%M%S" now +:+ ".csv")
    <> autosave_file self).
  { unfold autosave_file. intros Heq.
    apply TextX.path_join_inj in Heq; [discriminate Heq | reflexivity..]. }
  unfold extensionUnloaded. cbn [log_data set_shutdown_flag backup_folder].
  replace (negb (length (log_data self) =? 0)%nat) with true
    by (destruct (log_data self); [contradiction | reflexivity]).
  assert (Hw := write_ok (set_shutdown_flag true self)
                  (Py.path_join (backup_folder self)
                     ("SAVER_LOGGER_AUTOSAVE_"
                        +:+ Py.strftime "%d%m%Y_%H%M%S" now +:+ ".csv"))
                  t_header t_footer fs Hne).
  cbn [fst snd]. rewrite Hw. cbn [fst snd].
  split; [apply lookup_insert_eq|]. split; [exact Hdiff|].
  split; [by rewrite lookup_insert_ne|]. split; [|reflexivity].
  intros p Hp. by rewrite lookup_insert_ne.
Qed.

Lemma unload_backup_keeps_autosave_file_witness :
  let self := Sample.one_row in
  let now := Sample.at_second 9 in
  let target :=
    Py.path_join (backup_folder self)
      ("SAVER_LOGGER_AUTOSAVE_" +:+ Py.strftime "%d%m%Y_%H%M%S" now +:+ ".csv") in
  let result := extensionUnloaded self now now now io_ok ∅ in
  result.2 !! target
  = Some (String.concat "" (csv_writes self (log_data self) now now))
  /\ target <> autosave_file self
  /\ result.2 !! autosave_file self = (∅ : disk) !! autosave_file self
  /\ (forall p, p <> target -> result.2 !! p = (∅ : disk) !! p)
  /\ log_data result.1 = log_data self.
Proof.
  apply (unload_backup_keeps_autosave_file Sample.one_row (Sample.at_second 9)
           (Sample.at_second 9) (Sample.at_second 9) ∅).
  discriminate.
Defined.

(** X18: a clear forgets the pending request.  A request is processed, the
    logs are cleared, and then the response is processed: its row is the
    only row, with serial number 1 and request count 1, and it carries the
    defaults of an unmatched response, insertion-point count 0 and start
    time equal to end time, not the data of the request. *)
Theorem clear_forgets_pending_request
    (self : BurpExtender) (t_req t_resp : Py.datetime) (tf_req tf_resp : Z)
    (m_req m_resp : IHttpRequestResponse) :
  let self1 := _handle_request self t_req tf_req m_req in
  let self2 := clear_logs self1 true in
  let self3 := _handle_response self2 t_resp tf_resp m_resp in
  exists row,
    log_data self3 = [row]
    /\ serial_no row = 1
    /\ request_count row = 1
    /\ insertion_point_count row = 0
    /\ start_time row = stamp t_resp
    /\ end_time row = stamp t_resp
    /\ request_tracking self3 = ∅.
Proof.
  cbv zeta. eexists.
  rewrite handle_response_log, handle_response_tracking.
  split; [reflexivity|]. unfold finalized_row. simpl.
  repeat split.
Qed.

(** ** Sentinels and failures *)

Lemma str_int_not_sentinel n : Py.str_int n <> "-" /\ Py.str_int n <> "Error".
Proof.
  unfold Py.str_int, NilZero.string_of_int, NilZero.string_of_uint.
  destruct (Z.to_int n) as [u | u]; destruct u; simpl; split; discriminate.
Qed.

(** X19: the status column tells the three cases apart.  It is ["-"]
    exactly when the message has no response bytes and ["Error"] exactly
    when the response cannot be analysed; the text of a status code is
    never one of the two. *)
Theorem status_sentinels_are_unambiguous (res_bytes : response_bytes) :
  (status_of res_bytes = "-" <-> res_bytes = NoResponse)
  /\ (status_of res_bytes = "Error" <-> res_bytes = Unparseable)
  /\ (forall code, res_bytes = Analyzed code ->
        status_of res_bytes = Py.str_int code
        /\ status_of res_bytes <> "-" /\ status_of res_bytes <> "Error").
Proof.
  split; [|split].
  - destruct res_bytes as [| |code]; simpl; split; try done.
    intros H. by destruct (str_int_not_sentinel code).
  - destruct res_bytes as [| |code]; simpl; split; try done.
    intros H. by destruct (str_int_not_sentinel code).
  - intros code ->. simpl. split; [reflexivity|]. apply str_int_not_sentinel.
Qed.


